(** * Black-Scholes pricer, P&L surface and account-equity simulation (App.py)

    A shallow embedding of the quantitative core of [App.py]:
    [BlackScholes.calculate_prices], the surface loop of [plot_heatmap] and the
    trial loop of [plot_account_equity].

    Numbers.  Python [float] and [numpy.float64] are IEEE doubles.  They are
    modelled here with real arithmetic and with the IEEE special values
    kept: a computed value is a real, an infinity or NaN, and the operations
    raise numpy's floating-point warnings where IEEE raises the matching
    flag.  Scalars supplied by the sidebar or taken from an axis are finite;
    a scalar stored on a [BlackScholes] instance carries its value in [R]
    and a tag saying whether it is a Python [float] (sidebar) or a
    [numpy.float64] (element of an axis array), because the two behave
    differently on a zero divisor and on an overflowing power.

    What the real-number model leaves out, and how the statements allow for
    it.  Overflow is modelled where it decides the outcome on finite
    inputs: [sigma**2] (OverflowError on a Python float, an infinity with a
    warning on a [numpy.float64]) and [exp].  Sums, products and quotients
    of finite numbers are taken exact, and zero is unsigned.  Statements
    that give the value or the exact warnings of a computation therefore
    carry bounds on the inputs under which no intermediate result leaves
    the range of the finite doubles; the arithmetic in them is to be read
    as the rounded arithmetic of the code, operation by operation.
    Statements that only relate two runs, or a result to the intermediate
    values it was computed from, need no such bounds.  Where rounding
    itself is the point, lines 175-182 are also given in binary64
    ([Binary64]). *)

From Stdlib Require Import PrimFloat.
From Stdlib Require Import Reals Lra Lia ZArith.
From stdpp Require Import base option list.

Open Scope R_scope.

(** ** Python errors and numpy warnings *)

Inductive PyErr : Type :=
  | ZeroDivisionError
  | OverflowError
  | IndexError
  | AttributeError.

Inductive RuntimeWarning : Type :=
  | DivideByZero   (* "divide by zero encountered" *)
  | InvalidValue   (* "invalid value encountered" *)
  | Overflow.      (* "overflow encountered" *)

(** A computation either raises, or returns a value together with the
    warnings it emitted, in order. *)
Inductive py (A : Type) : Type :=
  | Raise (e : PyErr)
  | Return (a : A) (w : list RuntimeWarning).
Arguments Raise {A} e.
Arguments Return {A} a w.

#[export] Instance py_ret : MRet py := fun A a => Return a [].
#[export] Instance py_bind : MBind py := fun A B f m =>
  match m with
  | Raise e => Raise e
  | Return a w =>
      match f a with
      | Raise e => Raise e
      | Return b w' => Return b (w ++ w')
      end
  end.

Definition warn {A : Type} (a : A) (s : RuntimeWarning) : py A := Return a [s].

Definition value {A : Type} (m : py A) : option A :=
  match m with Raise _ => None | Return a _ => Some a end.

(** ** Doubles with special values *)

Inductive float64 : Type :=
  | Fin (x : R)
  | PInf
  | NInf
  | NaN.

Definition is_finite (a : float64) : Prop :=
  match a with Fin _ => True | _ => False end.

(** Sign of a real, as the position of [x] relative to 0. *)
Definition sgn (x : R) : comparison :=
  match total_order_T x 0 with
  | inleft (left _) => Lt
  | inleft (right _) => Eq
  | inright _ => Gt
  end.

Definition fsgn (a : float64) : comparison :=
  match a with
  | Fin x => sgn x
  | PInf => Gt
  | NInf => Lt
  | NaN => Eq
  end.

Definition inf_of (c : comparison) : float64 :=
  match c with Lt => NInf | _ => PInf end.

Definition cmp_mul (c d : comparison) : comparison :=
  match c, d with
  | Eq, _ | _, Eq => Eq
  | Lt, Lt | Gt, Gt => Gt
  | _, _ => Lt
  end.

Definition fneg (a : float64) : float64 :=
  match a with
  | Fin x => Fin (- x)
  | PInf => NInf
  | NInf => PInf
  | NaN => NaN
  end.

Definition fadd (a b : float64) : py float64 :=
  match a, b with
  | NaN, _ | _, NaN => mret NaN
  | Fin x, Fin y => mret (Fin (x + y))
  | PInf, NInf | NInf, PInf => warn NaN InvalidValue
  | PInf, _ | _, PInf => mret PInf
  | NInf, _ | _, NInf => mret NInf
  end.

Definition fsub (a b : float64) : py float64 := fadd a (fneg b).

Definition fmul (a b : float64) : py float64 :=
  match a, b with
  | NaN, _ | _, NaN => mret NaN
  | Fin x, Fin y => mret (Fin (x * y))
  | _, _ =>
      match cmp_mul (fsgn a) (fsgn b) with
      | Eq => warn NaN InvalidValue
      | c => mret (inf_of c)
      end
  end.

(** [numpy.float64.__truediv__]: never raises; a zero divisor gives an
    infinity (warning "divide by zero") or, for 0/0, NaN (warning
    "invalid value"). *)
Definition fdiv (a b : float64) : py float64 :=
  match a, b with
  | NaN, _ | _, NaN => mret NaN
  | Fin x, Fin y =>
      if Req_dec_T y 0 then
        if Req_dec_T x 0 then warn NaN InvalidValue
        else warn (inf_of (sgn x)) DivideByZero
      else mret (Fin (x / y))
  | Fin _, _ => mret (Fin 0)
  | _, Fin y => mret (inf_of (cmp_mul (fsgn a) (match sgn y with Eq => Gt | c => c end)))
  | _, _ => warn NaN InvalidValue
  end.

(** Python's [/] on two Python numbers: raises on a zero divisor. *)
Definition py_truediv (x y : R) : py R :=
  if Req_dec_T y 0 then Raise ZeroDivisionError else mret (x / y).

(** A finite scalar with its run-time type. *)
Inductive num : Type :=
  | PyFloat (x : R)   (* Python float *)
  | NpFloat (x : R).  (* numpy.float64 *)

Definition val (a : num) : R :=
  match a with PyFloat x | NpFloat x => x end.

(** [a / b]: Python's division when both operands are Python floats,
    numpy's as soon as one of them is a [numpy.float64]. *)
Definition truediv (a b : num) : py float64 :=
  match a, b with
  | PyFloat x, PyFloat y => x' ← py_truediv x y; mret (Fin x')
  | _, _ => fdiv (Fin (val a)) (Fin (val b))
  end.

(** Python's builtin [max(a, b)]: the first argument unless the second is
    strictly greater. *)
Definition py_max (a b : R) : R := if Rlt_dec a b then b else a.

Definition np_log (a : float64) : py float64 :=
  match a with
  | Fin x =>
      match total_order_T x 0 with
      | inleft (left _) => warn NaN InvalidValue
      | inleft (right _) => warn NInf DivideByZero
      | inright _ => mret (Fin (ln x))
      end
  | PInf => mret PInf
  | NInf => warn NaN InvalidValue
  | NaN => mret NaN
  end.

Definition np_sqrt (x : R) : py float64 :=
  if Rlt_dec x 0 then warn NaN InvalidValue else mret (Fin (sqrt x)).

(** The least magnitude that rounds to an infinity in binary64: a result
    of at least [2^1024 - 2^970] is an overflow. *)
Definition DBL_OVERFLOW : R := 2 ^ 1024 - 2 ^ 970.

(** [numpy.exp] on a finite scalar: an overflowing result is an infinity,
    with the warning "overflow encountered". *)
Definition np_exp (x : R) : py float64 :=
  if Rle_dec DBL_OVERFLOW (exp x) then warn PInf Overflow else mret (Fin (exp x)).

(** [x ** 2] on a Python float: CPython raises OverflowError when the
    square overflows. *)
Definition py_pow2 (x : R) : py R :=
  if Rle_dec DBL_OVERFLOW (x * x) then Raise OverflowError else mret (x ^ 2).

(** [x ** 2] on a [numpy.float64]: an overflowing square is an infinity,
    with the warning "overflow encountered". *)
Definition np_pow2 (x : R) : py float64 :=
  if Rle_dec DBL_OVERFLOW (x * x) then warn PInf Overflow else mret (Fin (x ^ 2)).

(** ** The standard normal distribution function

    [scipy.stats.norm.cdf] is the standard normal CDF.  It is defined here
    as one half plus the normalised area of the Gaussian kernel between 0
    and [x] (a signed Riemann integral). *)

Definition gauss (t : R) : R := exp (- (t * t / 2)).

Definition gauss_integrable (a b : R) : Riemann_integrable gauss a b.
Proof.
  assert (C : continuity gauss) by (unfold gauss; reg).
  destruct (Rle_dec a b) as [Hab | Hab].
  - apply continuity_implies_RiemannInt; [exact Hab | intros; apply C].
  - apply RiemannInt_P1, continuity_implies_RiemannInt; [lra | intros; apply C].
Qed.

Definition gauss_area (x : R) : R := RiemannInt (gauss_integrable 0 x).

Definition Phi (x : R) : R := 1 / 2 + / sqrt (2 * PI) * gauss_area x.

Definition norm_cdf (a : float64) : float64 :=
  match a with
  | Fin x => Fin (Phi x)
  | PInf => Fin 1
  | NInf => Fin 0
  | NaN => NaN
  end.

(** ** Module-level names of the script

    The sidebar binds these names at module level; the functions below read
    some of them as globals. *)
Module Env.
Record t : Type := mk {
  current_price : R;
  strike : R;
  time_to_maturity : R;
  volatility : R;
  risk_free_rate : R;
  market_call_quote : R;
  market_put_quote : R;
  amount_brought : Z;
  time_steps : Z
}.
End Env.

(** ** class BlackScholes *)
Module BlackScholes.
Record t : Type := mk {
  time_to_maturity : num;
  strike : num;
  current_price : num;
  volatility : num;
  risk_free_rate : num;
  (* set by [calculate_prices]; absent on a fresh instance *)
  call_price : option float64;
  put_price : option float64
}.

Definition __init__ (time_to_maturity strike current_price volatility risk_free_rate : num) : t :=
  mk time_to_maturity strike current_price volatility risk_free_rate None None.

(** The five constructor arguments of an instance. *)
Definition params (self : t) : num * num * num * num * num :=
  (time_to_maturity self, strike self, current_price self,
   volatility self, risk_free_rate self).

Definition set_prices (self : t) (c p : float64) : t :=
  mk (time_to_maturity self) (strike self) (current_price self)
     (volatility self) (risk_free_rate self) (Some c) (Some p).

(** Reading [self.call_price] / [self.put_price]. *)
Definition get_call_price (self : t) : py float64 :=
  match call_price self with Some c => mret c | None => Raise AttributeError end.
Definition get_put_price (self : t) : py float64 :=
  match put_price self with Some p => mret p | None => Raise AttributeError end.

(** [sigma * np.sqrt(t)], the divisor of [d1]. *)
Definition d1_divisor (sigma t : R) : py float64 :=
  sq ← np_sqrt t; fmul (Fin sigma) sq.

(** [(r + ((sigma**2)/2))*t]: Python arithmetic on a Python-float
    [sigma], numpy arithmetic on a [numpy.float64] one. *)
Definition drift_term (t : R) (sigma : num) (r : R) : py float64 :=
  match sigma with
  | PyFloat x => sq ← py_pow2 x; mret (Fin ((r + sq / 2) * t))
  | NpFloat x =>
      sq ← np_pow2 x;
      half ← fdiv sq (Fin 2);
      rate ← fadd (Fin r) half;
      fmul rate (Fin t)
  end.

(** [np.log(S/K) + (r + ((sigma**2)/2))*t], the dividend of [d1]. *)
Definition d1_dividend (t : R) (K S sigma : num) (r : R) : py float64 :=
  q ← truediv S K;
  lg ← np_log q;
  drift ← drift_term t sigma r;
  fadd lg drift.

Definition compute_d1 (t : R) (K S sigma : num) (r : R) : py float64 :=
  dividend ← d1_dividend t K S sigma r;
  divisor ← d1_divisor (val sigma) t;
  fdiv dividend divisor.

Definition compute_d2 (d1 : float64) (sigma t : R) : py float64 :=
  den ← d1_divisor sigma t; fsub d1 den.

(** [calculate_prices(self)].  [K] is bound to [self.strike] and used in
    [d1]; the two price lines read the name [strike], which is not a local
    of the method and resolves to the module-level [strike]. *)
Definition calculate_prices (g : Env.t) (self : t) : py (float64 * float64 * t) :=
  let t := val (time_to_maturity self) in
  let K := strike self in
  let S := current_price self in
  let sigma := val (volatility self) in
  let r := val (risk_free_rate self) in
  d1 ← compute_d1 t K S (volatility self) r;
  d2 ← compute_d2 d1 sigma t;
  (* call_price = S * norm.cdf(d1) - (strike * exp(-(r * t)) * norm.cdf(d2)) *)
  a ← fmul (Fin (val S)) (norm_cdf d1);
  e ← np_exp (- (r * t));
  b0 ← fmul (Fin (Env.strike g)) e;
  b ← fmul b0 (norm_cdf d2);
  call_price ← fsub a b;
  (* put_price = (strike * exp(-(r * t)) * norm.cdf(-d2)) - S * norm.cdf(-d1) *)
  e' ← np_exp (- (r * t));
  c0 ← fmul (Fin (Env.strike g)) e';
  c ← fmul c0 (norm_cdf (fneg d2));
  d ← fmul (Fin (val S)) (norm_cdf (fneg d1));
  put_price ← fsub c d;
  mret (call_price, put_price, set_prices self call_price put_price).
End BlackScholes.


(** ** The closed form, as the specification writes it *)
Module Spec.
Definition d1 (t K S sigma r : R) : R :=
  (ln (S / K) + (r + sigma ^ 2 / 2) * t) / (sigma * sqrt t).

Definition d2 (t K S sigma r : R) : R :=
  d1 t K S sigma r - sigma * sqrt t.

Definition call (t K S sigma r : R) : R :=
  S * Phi (d1 t K S sigma r) - K * exp (- (r * t)) * Phi (d2 t K S sigma r).

Definition put (t K S sigma r : R) : R :=
  K * exp (- (r * t)) * Phi (- d2 t K S sigma r) - S * Phi (- d1 t K S sigma r).
End Spec.

(** ** Loops *)

(** [for i, x in enumerate(l): s = body(i, x, s)], counting from [i]. *)
Fixpoint for_enumerate {A St : Type} (body : nat -> A -> St -> py St)
    (i : nat) (l : list A) (s : St) : py St :=
  match l with
  | [] => mret s
  | x :: l' => s' ← body i x s; for_enumerate body (S i) l' s'
  end.

(** [for _ in range(n): s = body(s)]. *)
Fixpoint for_range {St : Type} (n : nat) (body : St -> py St) (s : St) : py St :=
  match n with
  | O => mret s
  | S n' => s' ← body s; for_range n' body s'
  end.

(** ** plot_heatmap: the P&L surface *)

Abbreviation ndarray := (list (list float64)).

(** [np.zeros((n, m))]. *)
Definition np_zeros (n m : nat) : ndarray := replicate n (replicate m (Fin 0)).

(** [M[i, j] = x]; numpy raises IndexError out of bounds. *)
Definition setitem (M : ndarray) (i j : nat) (x : float64) : py ndarray :=
  match M !! i with
  | Some row =>
      if decide (j < length row)%nat
      then mret (<[i := <[j := x]> row]> M)
      else Raise IndexError
  | None => Raise IndexError
  end.

Definition shape (M : ndarray) (n m : nat) : Prop :=
  length M = n /\ forall row, row ∈ M -> length row = m.

(** Body of the inner loop of [plot_heatmap], lines 139-148.  [vol] and
    [spot] are elements of the two axis arrays, hence [numpy.float64]. *)
Definition heatmap_cell (g : Env.t) (bs_model : BlackScholes.t) (strike : num)
    (i : nat) (vol : R) (j : nat) (spot : R)
    (s : ndarray * ndarray) : py (ndarray * ndarray) :=
  let bs_temp :=
    BlackScholes.__init__ (BlackScholes.time_to_maturity bs_model) strike
                          (NpFloat spot) (NpFloat vol)
                          (BlackScholes.risk_free_rate bs_model) in
  '(_, _, bs_temp) ← BlackScholes.calculate_prices g bs_temp;
  c ← BlackScholes.get_call_price bs_temp;
  cv ← fsub c (Fin (Env.market_call_quote g));
  call_prices ← setitem s.1 i j cv;
  p ← BlackScholes.get_put_price bs_temp;
  pv ← fsub p (Fin (Env.market_put_quote g));
  put_prices ← setitem s.2 i j pv;
  mret (call_prices, put_prices).

(** [plot_heatmap(bs_model, spot_range, vol_range, strike)] up to line 148:
    the two matrices handed to the plotting calls.  The two axes are numpy
    arrays of doubles (built by [np.linspace], lines 115-116). *)
Definition plot_heatmap (g : Env.t) (bs_model : BlackScholes.t)
    (spot_range vol_range : list R) (strike : num) : py (ndarray * ndarray) :=
  let call_prices := np_zeros (length vol_range) (length spot_range) in
  let put_prices := np_zeros (length vol_range) (length spot_range) in
  for_enumerate
    (fun i vol s =>
       for_enumerate (fun j spot s => heatmap_cell g bs_model strike i vol j spot s)
                     O spot_range s)
    O vol_range (call_prices, put_prices).

(** ** plot_account_equity: the equity path *)

(** [np.cumsum]: the first element is copied, every later one is the
    previous output plus the next input. *)
Fixpoint cumsum_from (acc : R) (l : list R) : list R :=
  match l with
  | [] => []
  | x :: l' => (acc + x) :: cumsum_from (acc + x) l'
  end.

Definition np_cumsum (l : list R) : list R :=
  match l with
  | [] => []
  | x :: l' => x :: cumsum_from x l'
  end.


(** [path.simulated_path[-1]]. *)
Definition terminal_price (simulated_path : list R) : py R :=
  match last simulated_path with
  | Some x => mret x
  | None => Raise IndexError
  end.

(** The per-trade profit appended at line 178. *)
Definition payoff (g : Env.t) (premium terminal : R) : R :=
  py_max (terminal - Env.current_price g) 0 * IZR (Env.amount_brought g) - premium.

Section Simulation.

(** The path sampler of the [qfin] package is not part of this repository.
    It is taken as a parameter: from the five constructor arguments
    [(S, mu, sigma, dt, T)] and the state of the random generator it gives
    the attribute [simulated_path] (finite prices) and the next generator
    state. *)
Context {rng : Type}.
Variable GeometricBrownianMotion : R -> R -> R -> R -> R -> rng -> list R * rng.

(** One sampler call of the loop, line 177. *)
Definition sample_path (g : Env.t) (bs_model : BlackScholes.t) (s : rng) : py (list R * rng) :=
  dt ← py_truediv 1 (IZR (Env.time_steps g));
  mret (GeometricBrownianMotion (Env.current_price g) (Env.risk_free_rate g)
          (Env.volatility g) dt (val (BlackScholes.time_to_maturity bs_model)) s).

(** Body of the trial loop, lines 177-178. *)
Definition trial (g : Env.t) (bs_model : BlackScholes.t) (premium : R)
    (st : list R * rng) : py (list R * rng) :=
  '(path, s') ← sample_path g bs_model st.2;
  x ← terminal_price path;
  mret (st.1 ++ [payoff g premium x], s').

(** [plot_account_equity(bs_model, num_iterations)] up to the argument of
    [ax.plot]: the cumulative sums, and the generator state left behind. *)
Definition plot_account_equity (g : Env.t) (bs_model : BlackScholes.t)
    (num_iterations : Z) (s : rng) : py (list R * rng) :=
  '(expected_value, _, bs_model) ← BlackScholes.calculate_prices g bs_model;
  let premium := Env.market_call_quote g * IZR (Env.amount_brought g) in
  '(pls, s') ← for_range (Z.to_nat num_iterations) (trial g bs_model premium) ([], s);
  mret (np_cumsum pls, s').

(** The paths drawn by [n] successive sampler calls made as in line 177,
    starting from generator state [s]. *)
Fixpoint sampled_paths (g : Env.t) (bs_model : BlackScholes.t) (n : nat) (s : rng)
    : list (list R) :=
  match n with
  | O => []
  | S n' =>
      let sample :=
        GeometricBrownianMotion (Env.current_price g) (Env.risk_free_rate g)
          (Env.volatility g) (1 / IZR (Env.time_steps g))
          (val (BlackScholes.time_to_maturity bs_model)) s in
      sample.1 :: sampled_paths g bs_model n' sample.2
  end.

End Simulation.

(** ** Lines 175-182 in binary64

    The same payoff and running sum on IEEE doubles, each operation
    rounded to nearest; [amount_brought] is the integer already converted
    to a double, as [float * int] does. *)
Module Binary64.

(** [max(a, 0)]: the first argument unless the second is strictly
    greater. *)
Definition py_max (a b : float) : float := if PrimFloat.ltb a b then b else a.

(** Line 175. *)
Definition premium (market_call_quote amount_brought : float) : float :=
  PrimFloat.mul market_call_quote amount_brought.

(** Line 178. *)
Definition payoff (current_price amount_brought premium terminal : float) : float :=
  PrimFloat.sub
    (PrimFloat.mul (py_max (PrimFloat.sub terminal current_price) 0%float) amount_brought)
    premium.

(** [np.cumsum], as above. *)
Fixpoint cumsum_from (acc : float) (l : list float) : list float :=
  match l with
  | [] => []
  | x :: l' => PrimFloat.add acc x :: cumsum_from (PrimFloat.add acc x) l'
  end.

Definition np_cumsum (l : list float) : list float :=
  match l with
  | [] => []
  | x :: l' => x :: cumsum_from x l'
  end.

(** The equity path of lines 175-182 for given terminal prices. *)
Definition equity (current_price market_call_quote amount_brought : float)
    (terminals : list float) : list float :=
  np_cumsum
    (payoff current_price amount_brought (premium market_call_quote amount_brought)
       <$> terminals).

End Binary64.

(** ** What the code computes, and reasoning devices *)

(** What the method computes on valid parameters: the closed form, with
    the instance's strike inside [d1] and [d2] and the module-level [strike]
    in the discounted-strike factor. *)
Definition code_call (g : Env.t) (t K S sigma r : R) : R :=
  S * Phi (Spec.d1 t K S sigma r)
  - Env.strike g * exp (- (r * t)) * Phi (Spec.d2 t K S sigma r).

Definition code_put (g : Env.t) (t K S sigma r : R) : R :=
  Env.strike g * exp (- (r * t)) * Phi (- Spec.d2 t K S sigma r)
  - S * Phi (- Spec.d1 t K S sigma r).

(** The pair a call hands back to its caller (or the error it raises, and
    the warnings), without the instance. *)
Definition returned (m : py (float64 * float64 * BlackScholes.t)) : py (float64 * float64) :=
  '(c, p, _) ← m; mret (c, p).

(** [c - quote] for a finite quote. *)
Definition minus_quote (c : float64) (q : R) : float64 :=
  match c with
  | Fin x => Fin (x - q)
  | PInf => PInf
  | NInf => NInf
  | NaN => NaN
  end.

(** The pair returned by the pricer for one grid point. *)
Definition cell_prices (g : Env.t) (bs_model : BlackScholes.t) (strike : num)
    (vol spot : R) : float64 * float64 :=
  match BlackScholes.calculate_prices g
          (BlackScholes.__init__ (BlackScholes.time_to_maturity bs_model) strike
                                 (NpFloat spot) (NpFloat vol)
                                 (BlackScholes.risk_free_rate bs_model)) with
  | Return (c, p, _) _ => (c, p)
  | Raise _ => (NaN, NaN)
  end.

Definition call_cell (g : Env.t) (bs_model : BlackScholes.t) (strike : num)
    (vol spot : R) : float64 :=
  minus_quote (cell_prices g bs_model strike vol spot).1 (Env.market_call_quote g).

Definition put_cell (g : Env.t) (bs_model : BlackScholes.t) (strike : num)
    (vol spot : R) : float64 :=
  minus_quote (cell_prices g bs_model strike vol spot).2 (Env.market_put_quote g).

Definition surface (cell : R -> R -> float64) (spot_range vol_range : list R) : ndarray :=
  (fun vol => cell vol <$> spot_range) <$> vol_range.

(** [wp m Q]: [m] returns, and its value satisfies [Q]. *)
Definition wp {A : Type} (m : py A) (Q : A -> Prop) : Prop :=
  match m with Raise _ => False | Return a _ => Q a end.

(** [post m Q]: if [m] returns, its value satisfies [Q]. *)
Definition post {A : Type} (m : py A) (Q : A -> Prop) : Prop :=
  match m with Raise _ => True | Return a _ => Q a end.

(** Line 84 raises ZeroDivisionError on a Python-float spot divided by a
    Python-float strike equal to zero. *)
Definition zero_division (S K : num) : Prop :=
  match S, K with
  | PyFloat _, PyFloat y => y = 0
  | _, _ => False
  end.

(** Line 84 raises OverflowError on a Python-float volatility whose square
    overflows. *)
Definition pow_overflow (sigma : num) : Prop :=
  match sigma with
  | PyFloat x => DBL_OVERFLOW <= x * x
  | NpFloat _ => False
  end.

(** The square of the volatility is a finite double. *)
Definition square_fits (sigma : num) : Prop := val sigma * val sigma < DBL_OVERFLOW.

(** The discount factor [exp(-(r * t))] is a finite double. *)
Definition discount_fits (r t : R) : Prop := exp (- (r * t)) < DBL_OVERFLOW.

(** Ordinary magnitudes: inside these bounds the five parameters are valid
    and no intermediate result of lines 84-88 leaves the range of the
    finite doubles or comes close to zero. *)
Definition ordinary (t K S sigma r : R) : Prop :=
  / 10 ^ 6 <= t <= 100 /\ / 10 ^ 6 <= K <= 10 ^ 12 /\ / 10 ^ 6 <= S <= 10 ^ 12 /\
  / 10 ^ 6 <= sigma <= 100 /\ -1 <= r <= 1.

(** ** Concrete inputs *)

(** The module-level names at the sidebar's default values (spot 100,
    strike 100, one year, volatility 0.3, rate 0.05, quotes 14.1 and 9.2,
    100 options, 252 steps). *)
Definition env_100 : Env.t :=
  Env.mk 100 100 1 (3 / 10) (5 / 100) (141 / 10) (92 / 10) 100 252.

(** The same names with a module-level strike of 50. *)
Definition env_50 : Env.t :=
  Env.mk 100 50 1 (3 / 10) (5 / 100) (141 / 10) (92 / 10) 100 252.

(** An instance with strike 50, at the money on its own strike; with
    t = 1, sigma = 1 and r = 1/2 it has [d1 = 1] and [d2 = 0]. *)
Definition bs_50 : BlackScholes.t :=
  BlackScholes.__init__ (PyFloat 1) (PyFloat 50) (PyFloat 50) (PyFloat 1) (PyFloat (1 / 2)).

(** An in-the-money contract at expiry. *)
Definition bs_expiry : BlackScholes.t :=
  BlackScholes.__init__ (PyFloat 0) (PyFloat 100) (PyFloat 110) (PyFloat (3 / 10))
                        (PyFloat (5 / 100)).


(** The same contract at expiry. *)
Definition bs_huge_sigma_expiry : BlackScholes.t :=
  BlackScholes.__init__ (PyFloat 0) (PyFloat 100) (PyFloat 110) (PyFloat (10 ^ 155))
                        (PyFloat (5 / 100)).


(** A sampler for examples: a two-point path ending one above its start;
    the generator state counts the calls. *)
Definition two_point_sampler (S0 mu sigma dt T : R) (s : nat) : list R * nat :=
  ([S0; S0 + 1], S s).


(** ** The script around the three functions *)

(** [np.linspace(start, stop, num)] with its defaults: [num] evenly spaced
    points, the last one overwritten with [stop]. *)
Definition np_linspace (start stop : R) (num : nat) : list R :=
  let div := (num - 1)%nat in
  let delta := stop - start in
  let y :=
    if decide (0 < div)%nat
    then (fun i => INR i * (delta / INR div) + start) <$> seq 0 num
    else (fun i => INR i * delta + start) <$> seq 0 num in
  if decide (1 < num)%nat then <[div := stop]> y else y.

(** The remaining sidebar names read by the script (lines 110-113, 126). *)
Module Sidebar.
Record t : Type := mk {
  min_spot : R;
  max_spot : R;
  min_vol : R;
  max_vol : R;
  num_iterations : Z
}.
End Sidebar.

(** Lines 115-116. *)
Definition spot_range (b : Sidebar.t) : list R :=
  np_linspace (Sidebar.min_spot b) (Sidebar.max_spot b) 10.

Definition vol_range (b : Sidebar.t) : list R :=
  np_linspace (Sidebar.min_vol b) (Sidebar.max_vol b) 10.

(** Line 217: the model built from the five sidebar floats. *)
Definition bs_model (g : Env.t) : BlackScholes.t :=
  BlackScholes.__init__ (PyFloat (Env.time_to_maturity g)) (PyFloat (Env.strike g))
                        (PyFloat (Env.current_price g)) (PyFloat (Env.volatility g))
                        (PyFloat (Env.risk_free_rate g)).

(** What the script hands to the page: the two prices of the tabs, the
    call matrix of the first heatmap call, the put matrix of the second,
    and the equity path. *)
Record Page : Type := mkPage {
  call_value : float64;
  put_value : float64;
  heatmap_call : ndarray;
  heatmap_put : ndarray;
  account_equity : list R
}.

Section Script.

Context {rng : Type}.
Variable GeometricBrownianMotion : R -> R -> R -> R -> R -> rng -> list R * rng.

(** The computations of the module body in order: lines 217-218, 273, 278
    and 294.  The one model object is shared by all four calls. *)
Definition script (g : Env.t) (b : Sidebar.t) (s : rng) : py (Page * rng) :=
  '(call_price, put_price, bs_model) ← BlackScholes.calculate_prices g (bs_model g);
  '(heatmap_fig_call, _) ←
     plot_heatmap g bs_model (spot_range b) (vol_range b) (PyFloat (Env.strike g));
  '(_, heatmap_fig_put) ←
     plot_heatmap g bs_model (spot_range b) (vol_range b) (PyFloat (Env.strike g));
  '(account_equity_call, s') ←
     plot_account_equity GeometricBrownianMotion g bs_model (Sidebar.num_iterations b) s;
  mret (mkPage call_price put_price heatmap_fig_call heatmap_fig_put account_equity_call, s').

(** The generator state after [n] sampler calls made as in line 177. *)
Fixpoint rng_after (g : Env.t) (bs_model : BlackScholes.t) (n : nat) (s : rng) : rng :=
  match n with
  | O => s
  | S n' =>
      rng_after g bs_model n'
        (GeometricBrownianMotion (Env.current_price g) (Env.risk_free_rate g)
           (Env.volatility g) (1 / IZR (Env.time_steps g))
           (val (BlackScholes.time_to_maturity bs_model)) s).2
  end.

End Script.

(** The sidebar bounds at their default values for a spot of 100 and a
    volatility of 0.3, with 3 trades. *)
Definition sidebar_default : Sidebar.t := Sidebar.mk 80 120 (15 / 100) (45 / 100) 3.




(** The default names with a strike of 0. *)
Definition env_zero_strike : Env.t :=
  Env.mk 100 0 1 (3 / 10) (5 / 100) (141 / 10) (92 / 10) 100 252.

(** * Properties *)

(** ** The monad and the numeric primitives *)

Lemma bind_Return {A B : Type} (a : A) (w : list RuntimeWarning) (f : A -> py B) :
  Return a w ≫= f =
  match f a with Raise e => Raise e | Return b w' => Return b (w ++ w') end.
Proof. reflexivity. Qed.

Lemma bind_mret {A B : Type} (a : A) (f : A -> py B) : mret a ≫= f = f a.
Proof. unfold mret, py_ret. rewrite bind_Return. destruct (f a); reflexivity. Qed.

Lemma py_truediv_nonzero (x y : R) : y <> 0 -> py_truediv x y = mret (x / y).
Proof. intros Hy. unfold py_truediv. destruct (Req_dec_T y 0); [contradiction | reflexivity]. Qed.

Lemma py_truediv_zero (x : R) : py_truediv x 0 = Raise ZeroDivisionError.
Proof. unfold py_truediv. destruct (Req_dec_T 0 0); [reflexivity | contradiction]. Qed.

Lemma fdiv_Fin (x y : R) : y <> 0 -> fdiv (Fin x) (Fin y) = mret (Fin (x / y)).
Proof. intros Hy. unfold fdiv. destruct (Req_dec_T y 0); [contradiction | reflexivity]. Qed.

Lemma truediv_nonzero (a b : num) :
  val b <> 0 -> truediv a b = mret (Fin (val a / val b)).
Proof.
  intros Hb. destruct a as [x | x], b as [y | y]; simpl in *.
  - rewrite py_truediv_nonzero by exact Hb. rewrite bind_mret. reflexivity.
  - apply fdiv_Fin, Hb.
  - apply fdiv_Fin, Hb.
  - apply fdiv_Fin, Hb.
Qed.

Lemma truediv_zero_division (a b : num) :
  zero_division a b -> truediv a b = Raise ZeroDivisionError.
Proof.
  destruct a as [x | x], b as [y | y]; simpl; try tauto.
  intros ->. rewrite py_truediv_zero. reflexivity.
Qed.

Lemma np_log_pos (x : R) : 0 < x -> np_log (Fin x) = mret (Fin (ln x)).
Proof.
  intros Hx. unfold np_log.
  destruct (total_order_T x 0) as [[H | H] | H]; [lra | lra | reflexivity].
Qed.

Lemma np_sqrt_nonneg (x : R) : 0 <= x -> np_sqrt x = mret (Fin (sqrt x)).
Proof. intros Hx. unfold np_sqrt. destruct (Rlt_dec x 0); [lra | reflexivity]. Qed.

Lemma sgn_pos (x : R) : 0 < x -> sgn x = Gt.
Proof.
  intros Hx. unfold sgn. destruct (total_order_T x 0) as [[H | H] | H]; [lra | lra | reflexivity].
Qed.

Lemma d1_divisor_nonneg (sigma t : R) :
  0 <= t -> BlackScholes.d1_divisor sigma t = mret (Fin (sigma * sqrt t)).
Proof.
  intros Ht. unfold BlackScholes.d1_divisor. rewrite np_sqrt_nonneg by exact Ht.
  rewrite bind_mret. reflexivity.
Qed.

Lemma DBL_OVERFLOW_IZR : DBL_OVERFLOW = IZR (2 ^ 1024 - 2 ^ 970).
Proof.
  unfold DBL_OVERFLOW. rewrite !pow_IZR, <- minus_IZR.
  apply f_equal. vm_compute. reflexivity.
Qed.

Lemma DBL_OVERFLOW_above (z : Z) : (z < 2 ^ 1024 - 2 ^ 970)%Z -> IZR z < DBL_OVERFLOW.
Proof. intros Hz. rewrite DBL_OVERFLOW_IZR. apply IZR_lt, Hz. Qed.

Lemma DBL_OVERFLOW_below (z : Z) : (2 ^ 1024 - 2 ^ 970 <= z)%Z -> DBL_OVERFLOW <= IZR z.
Proof. intros Hz. rewrite DBL_OVERFLOW_IZR. apply IZR_le, Hz. Qed.

(** A volatility of magnitude at most 100 has a square far from overflow. *)
Lemma square_fits_small (sigma : num) : -100 <= val sigma <= 100 -> square_fits sigma.
Proof.
  intros Hs. unfold square_fits.
  apply Rle_lt_trans with (IZR 10000); [nra |].
  apply DBL_OVERFLOW_above. vm_compute. reflexivity.
Qed.


Lemma drift_term_fits (t : R) (sigma : num) (r : R) :
  square_fits sigma ->
  BlackScholes.drift_term t sigma r = mret (Fin ((r + val sigma ^ 2 / 2) * t)).
Proof.
  unfold square_fits. intros Hfit.
  destruct sigma as [x | x]; cbn [val] in *; unfold BlackScholes.drift_term.
  - unfold py_pow2. destruct (Rle_dec DBL_OVERFLOW (x * x)); [lra |].
    rewrite bind_mret. reflexivity.
  - unfold np_pow2. destruct (Rle_dec DBL_OVERFLOW (x * x)); [lra |].
    rewrite bind_mret. rewrite fdiv_Fin by lra. rewrite bind_mret.
    unfold fadd. rewrite bind_mret. reflexivity.
Qed.

Lemma np_exp_fits (x : R) : exp x < DBL_OVERFLOW -> np_exp x = mret (Fin (exp x)).
Proof. intros Hx. unfold np_exp. destruct (Rle_dec DBL_OVERFLOW (exp x)); [lra | reflexivity]. Qed.

Lemma exp_INR_le (n : nat) : exp (INR n) <= 3 ^ n.
Proof.
  induction n as [| n IH].
  - simpl. rewrite exp_0. lra.
  - rewrite S_INR, exp_plus. simpl pow.
    pose proof exp_le_3 as H3. pose proof (exp_pos (INR n)) as Hn.
    pose proof (exp_pos 1) as H1. nra.
Qed.

(** An exponent of at most 100 is far from overflow. *)
Lemma exp_fits_small (x : R) : x <= 100 -> exp x < DBL_OVERFLOW.
Proof.
  intros Hx. apply Rle_lt_trans with (exp (INR 100)).
  - replace (INR 100) with 100 by (rewrite INR_IZR_INZ; reflexivity).
    destruct Hx as [Hx | ->]; [left; apply exp_increasing, Hx | right; reflexivity].
  - eapply Rle_lt_trans; [apply exp_INR_le |].
    rewrite pow_IZR. apply DBL_OVERFLOW_above. vm_compute. reflexivity.
Qed.

Lemma discount_fits_small (r t : R) : -100 <= r * t -> discount_fits r t.
Proof. intros H. apply exp_fits_small. lra. Qed.

Lemma d1_dividend_pos (t : R) (K S sigma : num) (r : R) :
  0 < val K -> 0 < val S -> square_fits sigma ->
  BlackScholes.d1_dividend t K S sigma r =
  mret (Fin (ln (val S / val K) + (r + val sigma ^ 2 / 2) * t)).
Proof.
  intros HK HS Hfit. unfold BlackScholes.d1_dividend.
  rewrite truediv_nonzero by lra. rewrite bind_mret.
  rewrite np_log_pos by (apply Rdiv_lt_0_compat; assumption).
  rewrite bind_mret. rewrite drift_term_fits by exact Hfit.
  rewrite bind_mret. reflexivity.
Qed.

Lemma sigma_sqrt_pos (sigma t : R) : 0 < t -> 0 < sigma -> 0 < sigma * sqrt t.
Proof. intros Ht Hs. apply Rmult_lt_0_compat; [exact Hs | apply sqrt_lt_R0; exact Ht]. Qed.

Lemma compute_d1_valid (t : R) (K S sigma : num) (r : R) :
  0 < t -> 0 < val K -> 0 < val S -> 0 < val sigma -> square_fits sigma ->
  BlackScholes.compute_d1 t K S sigma r
  = mret (Fin (Spec.d1 t (val K) (val S) (val sigma) r)).
Proof.
  intros Ht HK HS Hs Hfit. unfold BlackScholes.compute_d1.
  rewrite d1_dividend_pos by assumption. rewrite bind_mret.
  rewrite d1_divisor_nonneg by lra. rewrite bind_mret.
  rewrite fdiv_Fin; [reflexivity |].
  pose proof (sigma_sqrt_pos (val sigma) t Ht Hs). lra.
Qed.

Lemma calculate_prices_valid (g : Env.t) (self : BlackScholes.t) :
  let t := val (BlackScholes.time_to_maturity self) in
  let K := val (BlackScholes.strike self) in
  let S := val (BlackScholes.current_price self) in
  let sigma := val (BlackScholes.volatility self) in
  let r := val (BlackScholes.risk_free_rate self) in
  0 < t -> 0 < K -> 0 < S -> 0 < sigma ->
  square_fits (BlackScholes.volatility self) -> discount_fits r t ->
  BlackScholes.calculate_prices g self =
  Return (Fin (code_call g t K S sigma r), Fin (code_put g t K S sigma r),
          BlackScholes.set_prices self (Fin (code_call g t K S sigma r))
                                       (Fin (code_put g t K S sigma r))) [].
Proof.
  intros t K S sigma r Ht HK HS Hs Hfit Hexp. unfold BlackScholes.calculate_prices.
  fold t K S sigma r.
  rewrite compute_d1_valid by assumption. rewrite bind_mret.
  unfold BlackScholes.compute_d2. rewrite d1_divisor_nonneg by lra.
  rewrite bind_mret. rewrite np_exp_fits by exact Hexp. reflexivity.
Qed.

(** ** The normal distribution function *)

Lemma gauss_even (t : R) : gauss (- t) = gauss t.
Proof. unfold gauss. f_equal. lra. Qed.

Lemma gauss_area_0 : gauss_area 0 = 0.
Proof. apply RiemannInt_P9. Qed.

Lemma gauss_area_from (a x : R) :
  gauss_area x = RiemannInt (gauss_integrable a x) - RiemannInt (gauss_integrable a 0).
Proof.
  unfold gauss_area.
  rewrite <- (RiemannInt_P26 (gauss_integrable a 0) (gauss_integrable 0 x)
                             (gauss_integrable a x)).
  lra.
Qed.

(** The area function is a primitive of the kernel. *)
Lemma gauss_area_derivative (x : R) : derivable_pt_lim gauss_area x (gauss x).
Proof.
  set (a := Rmin 0 x - 2). set (b := Rmax 0 x + 2).
  assert (Hax : a < x - 1) by (unfold a, Rmin; destruct (Rle_dec 0 x); lra).
  assert (Hxb : x + 1 < b) by (unfold b, Rmax; destruct (Rle_dec 0 x); lra).
  assert (h : a <= b) by lra.
  assert (C0 : forall z, a <= z <= b -> continuity_pt gauss z).
  { intros z _. assert (C : continuity gauss) by (unfold gauss; reg). apply C. }
  assert (Hx : a < x < b) by lra.
  pose proof (RiemannInt_P27 h C0 Hx) as HP.
  assert (Heq : forall z, a <= z <= b ->
            gauss_area z =
            primitive h (FTC_P1 h C0) z - RiemannInt (gauss_integrable a 0)).
  { intros z [Hz1 Hz2]. rewrite (gauss_area_from a z). f_equal.
    unfold primitive. destruct (Rle_dec a z); [| lra]. destruct (Rle_dec z b); [| lra].
    apply RiemannInt_P5. }
  intros eps Heps. destruct (HP eps Heps) as [delta Hd].
  assert (Hm : 0 < Rmin delta 1) by (apply Rmin_pos; [apply cond_pos | lra]).
  exists (mkposreal _ Hm). intros k Hk0 Hk. simpl in Hk.
  assert (Hk1 : Rabs k < 1) by (eapply Rlt_le_trans; [exact Hk | apply Rmin_r]).
  assert (Hkd : Rabs k < delta) by (eapply Rlt_le_trans; [exact Hk | apply Rmin_l]).
  apply Rabs_def2 in Hk1.
  rewrite (Heq (x + k)) by lra. rewrite (Heq x) by lra.
  replace (primitive h (FTC_P1 h C0) (x + k) - RiemannInt (gauss_integrable a 0) -
           (primitive h (FTC_P1 h C0) x - RiemannInt (gauss_integrable a 0)))
    with (primitive h (FTC_P1 h C0) (x + k) - primitive h (FTC_P1 h C0) x) by lra.
  apply Hd; assumption.
Qed.

(** The kernel is even, so its area from 0 is odd. *)
Lemma gauss_area_odd (x : R) : gauss_area (- x) = - gauss_area x.
Proof.
  set (H := fun y : R => gauss_area y + gauss_area (- y)).
  assert (dH : forall y, derivable_pt_lim H y 0).
  { intro y. unfold H.
    replace 0 with (gauss y + gauss (- y) * (-1)) by (rewrite gauss_even; lra).
    apply (derivable_pt_lim_plus gauss_area (fun z => gauss_area (- z))).
    - apply gauss_area_derivative.
    - apply (derivable_pt_lim_comp (fun z => - z) gauss_area).
      + replace (-1) with (- 1) by lra.
        apply (derivable_pt_lim_opp id), derivable_pt_lim_id.
      + apply gauss_area_derivative. }
  assert (pr : derivable H) by (intro y; exists 0; apply dH).
  assert (Hc : constant H).
  { apply (null_derivative_1 H pr). intro y. apply derive_pt_eq_0, dH. }
  specialize (Hc x 0). unfold H in Hc.
  rewrite Ropp_0, gauss_area_0 in Hc. lra.
Qed.

Lemma Phi_symmetry (x : R) : Phi x + Phi (- x) = 1.
Proof. unfold Phi. rewrite gauss_area_odd. lra. Qed.

Lemma Phi_0 : Phi 0 = 1 / 2.
Proof. unfold Phi. rewrite gauss_area_0. lra. Qed.

(** ** The pricer on valid parameters *)

(** With the module-level [strike] equal to the instance's, the method
    returns the closed form of the specification. *)
Lemma calculate_prices_closed_form (g : Env.t) (self : BlackScholes.t) :
  let t := val (BlackScholes.time_to_maturity self) in
  let K := val (BlackScholes.strike self) in
  let S := val (BlackScholes.current_price self) in
  let sigma := val (BlackScholes.volatility self) in
  let r := val (BlackScholes.risk_free_rate self) in
  0 < t -> 0 < K -> 0 < S -> 0 < sigma ->
  square_fits (BlackScholes.volatility self) -> discount_fits r t ->
  Env.strike g = K ->
  BlackScholes.calculate_prices g self =
  Return (Fin (Spec.call t K S sigma r), Fin (Spec.put t K S sigma r),
          BlackScholes.set_prices self (Fin (Spec.call t K S sigma r))
                                       (Fin (Spec.put t K S sigma r))) [].
Proof.
  intros t K S sigma r Ht HK HS Hs Hfit Hexp Hg.
  rewrite calculate_prices_valid by assumption. fold t K S sigma r.
  unfold code_call, code_put, Spec.call, Spec.put. rewrite Hg. reflexivity.
Qed.

(** Parity of the values the code returns, against the module-level
    [strike]. *)
Lemma code_parity (g : Env.t) (t K S sigma r : R) :
  code_call g t K S sigma r - code_put g t K S sigma r
  = S - Env.strike g * exp (- (r * t)).
Proof.
  unfold code_call, code_put.
  pose proof (Phi_symmetry (Spec.d1 t K S sigma r)).
  pose proof (Phi_symmetry (Spec.d2 t K S sigma r)).
  nra.
Qed.

Ltac concrete :=
  first [ simpl; lra
        | apply square_fits_small; simpl; lra
        | apply discount_fits_small; simpl; lra ].

Lemma d1_bs_50 : Spec.d1 1 50 50 1 (1 / 2) = 1.
Proof.
  unfold Spec.d1. replace (50 / 50) with 1 by lra. rewrite ln_1, sqrt_1. lra.
Qed.

Lemma d2_bs_50 : Spec.d2 1 50 50 1 (1 / 2) = 0.
Proof. unfold Spec.d2. rewrite d1_bs_50, sqrt_1. lra. Qed.

Lemma calculate_prices_bs_50 :
  BlackScholes.calculate_prices env_100 bs_50 =
  Return (Fin (code_call env_100 1 50 50 1 (1 / 2)),
          Fin (code_put env_100 1 50 50 1 (1 / 2)),
          BlackScholes.set_prices bs_50 (Fin (code_call env_100 1 50 50 1 (1 / 2)))
                                        (Fin (code_put env_100 1 50 50 1 (1 / 2)))) [].
Proof. apply (calculate_prices_valid env_100 bs_50); concrete. Qed.

Lemma exp_half_pos : 0 < exp (- (1 / 2 * 1)).
Proof. apply exp_pos. Qed.

(** ** Reasoning about computations *)

Lemma wp_bind {A B : Type} (m : py A) (f : A -> py B) (Q : B -> Prop) :
  wp m (fun a => wp (f a) Q) -> wp (m ≫= f) Q.
Proof.
  unfold mbind, py_bind. destruct m as [e | a w]; simpl; [tauto |].
  destruct (f a); simpl; tauto.
Qed.

Lemma post_bind {A B : Type} (m : py A) (f : A -> py B) (Q : B -> Prop) :
  post m (fun a => post (f a) Q) -> post (m ≫= f) Q.
Proof.
  unfold mbind, py_bind. destruct m as [e | a w]; simpl; [tauto |].
  destruct (f a); simpl; tauto.
Qed.

Lemma wp_mret {A : Type} (a : A) (Q : A -> Prop) : Q a -> wp (mret a) Q.
Proof. intros H. exact H. Qed.

Lemma post_mret {A : Type} (a : A) (Q : A -> Prop) : Q a -> post (mret a) Q.
Proof. intros H. exact H. Qed.

Lemma post_any {A : Type} (m : py A) (Q : A -> Prop) : (forall a, Q a) -> post m Q.
Proof. intros H. destruct m; simpl; auto. Qed.

Lemma wp_elim {A : Type} (m : py A) (Q : A -> Prop) :
  wp m Q -> exists a w, m = Return a w /\ Q a.
Proof. destruct m as [e | a w]; simpl; [tauto | eauto]. Qed.

Lemma post_elim {A : Type} (m : py A) (Q : A -> Prop) (a : A) (w : list RuntimeWarning) :
  post m Q -> m = Return a w -> Q a.
Proof. intros H ->. exact H. Qed.

(** The numpy operations never raise. *)
Lemma wp_fadd (a b : float64) (Q : float64 -> Prop) : (forall c, Q c) -> wp (fadd a b) Q.
Proof. intros H. destruct a, b; simpl; apply H. Qed.

Lemma wp_fsub (a b : float64) (Q : float64 -> Prop) : (forall c, Q c) -> wp (fsub a b) Q.
Proof. intros H. apply wp_fadd, H. Qed.

Lemma wp_fmul (a b : float64) (Q : float64 -> Prop) : (forall c, Q c) -> wp (fmul a b) Q.
Proof.
  intros H. destruct a as [x | | |], b as [y | | |]; simpl; try apply H;
    try (destruct (sgn x); apply H); destruct (sgn y); apply H.
Qed.

Lemma wp_fdiv (a b : float64) (Q : float64 -> Prop) : (forall c, Q c) -> wp (fdiv a b) Q.
Proof.
  intros H. destruct a, b; simpl; try apply H.
  destruct (Req_dec_T _ 0); [destruct (Req_dec_T _ 0) |]; apply H.
Qed.

Lemma wp_np_log (a : float64) (Q : float64 -> Prop) : (forall c, Q c) -> wp (np_log a) Q.
Proof.
  intros H. destruct a as [x | | |]; simpl; try apply H.
  destruct (total_order_T x 0) as [[? | ?] | ?]; apply H.
Qed.

Lemma wp_np_sqrt (x : R) (Q : float64 -> Prop) : (forall c, Q c) -> wp (np_sqrt x) Q.
Proof. intros H. unfold np_sqrt. destruct (Rlt_dec x 0); apply H. Qed.

Lemma wp_d1_divisor (sigma t : R) (Q : float64 -> Prop) :
  (forall c, Q c) -> wp (BlackScholes.d1_divisor sigma t) Q.
Proof.
  intros H. unfold BlackScholes.d1_divisor.
  apply wp_bind, wp_np_sqrt. intros sq. apply wp_fmul, H.
Qed.

Lemma wp_truediv (a b : num) (Q : float64 -> Prop) :
  ~ zero_division a b -> (forall c, Q c) -> wp (truediv a b) Q.
Proof.
  intros Hz H. destruct a as [x | x], b as [y | y]; unfold truediv;
    try (apply wp_fdiv, H).
  simpl in Hz. rewrite py_truediv_nonzero by exact Hz. rewrite bind_mret. apply H.
Qed.


Lemma wp_np_exp (x : R) (Q : float64 -> Prop) : (forall c, Q c) -> wp (np_exp x) Q.
Proof. intros H. unfold np_exp. destruct (Rle_dec _ _); apply H. Qed.

Lemma wp_np_pow2 (x : R) (Q : float64 -> Prop) : (forall c, Q c) -> wp (np_pow2 x) Q.
Proof. intros H. unfold np_pow2. destruct (Rle_dec _ _); apply H. Qed.

Lemma wp_drift_term (t : R) (sigma : num) (r : R) (Q : float64 -> Prop) :
  ~ pow_overflow sigma -> (forall c, Q c) -> wp (BlackScholes.drift_term t sigma r) Q.
Proof.
  intros Hs H. destruct sigma as [x | x]; unfold BlackScholes.drift_term.
  - simpl in Hs. unfold py_pow2. destruct (Rle_dec _ _); [contradiction |].
    rewrite bind_mret. apply H.
  - apply wp_bind, wp_np_pow2. intros sq.
    apply wp_bind, wp_fdiv. intros half.
    apply wp_bind, wp_fadd. intros rate. apply wp_fmul, H.
Qed.

Lemma wp_compute_d1 (t : R) (K S sigma : num) (r : R) (Q : float64 -> Prop) :
  ~ zero_division S K -> ~ pow_overflow sigma -> (forall c, Q c) ->
  wp (BlackScholes.compute_d1 t K S sigma r) Q.
Proof.
  intros HK Hs H. unfold BlackScholes.compute_d1, BlackScholes.d1_dividend.
  apply wp_bind, wp_bind, wp_truediv; [exact HK |]. intros q.
  apply wp_bind, wp_np_log. intros lg.
  apply wp_bind, wp_drift_term; [exact Hs |]. intros drift.
  apply wp_fadd. intros num.
  apply wp_bind, wp_d1_divisor. intros den. apply wp_fdiv, H.
Qed.

(** Line 84 raises ZeroDivisionError when it divides a Python-float spot
    by a Python-float strike equal to zero. *)
Lemma calculate_prices_zero_strike (g : Env.t) (self : BlackScholes.t) :
  zero_division (BlackScholes.current_price self) (BlackScholes.strike self) ->
  BlackScholes.calculate_prices g self = Raise ZeroDivisionError.
Proof.
  intros HK. unfold BlackScholes.calculate_prices, BlackScholes.compute_d1,
    BlackScholes.d1_dividend.
  rewrite truediv_zero_division by exact HK. reflexivity.
Qed.

(** Past that division, line 84 raises OverflowError when the volatility
    is a Python float whose square overflows. *)
Lemma calculate_prices_overflow (g : Env.t) (self : BlackScholes.t) :
  ~ zero_division (BlackScholes.current_price self) (BlackScholes.strike self) ->
  pow_overflow (BlackScholes.volatility self) ->
  BlackScholes.calculate_prices g self = Raise OverflowError.
Proof.
  intros HK Hs. unfold BlackScholes.calculate_prices, BlackScholes.compute_d1,
    BlackScholes.d1_dividend.
  destruct (wp_elim _ _ (wp_truediv _ _ (fun _ => True) HK (fun _ => I)))
    as (q & w & -> & _).
  rewrite bind_Return.
  destruct (wp_elim _ _ (wp_np_log q (fun _ => True) (fun _ => I))) as (lg & w' & -> & _).
  rewrite bind_Return.
  destruct (BlackScholes.volatility self) as [x | x]; simpl in Hs; [| contradiction].
  unfold BlackScholes.drift_term, py_pow2.
  destruct (Rle_dec _ _); [reflexivity | contradiction].
Qed.

Lemma zero_division_dec (S K : num) : {zero_division S K} + {~ zero_division S K}.
Proof.
  destruct S as [x | x], K as [y | y]; simpl; try (right; tauto).
  apply Req_dec_T.
Qed.

Lemma pow_overflow_dec (sigma : num) : {pow_overflow sigma} + {~ pow_overflow sigma}.
Proof. destruct sigma as [x | x]; simpl; [apply Rle_dec | right; tauto]. Qed.

(** In every other case the method returns. *)
Lemma calculate_prices_returns (g : Env.t) (self : BlackScholes.t) :
  ~ zero_division (BlackScholes.current_price self) (BlackScholes.strike self) ->
  ~ pow_overflow (BlackScholes.volatility self) ->
  wp (BlackScholes.calculate_prices g self)
     (fun '(c, p, self') => self' = BlackScholes.set_prices self c p).
Proof.
  intros HK Hs. unfold BlackScholes.calculate_prices.
  apply wp_bind, wp_compute_d1; [exact HK | exact Hs |]. intros d1.
  apply wp_bind. unfold BlackScholes.compute_d2.
  apply wp_bind, wp_d1_divisor. intros den. apply wp_fsub. intros d2.
  apply wp_bind, wp_fmul. intros a.
  apply wp_bind, wp_np_exp. intros e.
  apply wp_bind, wp_fmul. intros b0.
  apply wp_bind, wp_fmul. intros b.
  apply wp_bind, wp_fsub. intros c.
  apply wp_bind, wp_np_exp. intros e'.
  apply wp_bind, wp_fmul. intros c0.
  apply wp_bind, wp_fmul. intros c1.
  apply wp_bind, wp_fmul. intros d.
  apply wp_bind, wp_fsub. intros p.
  apply wp_mret. reflexivity.
Qed.

(** What a returning call leaves on the instance are the two prices it
    returns. *)
Lemma calculate_prices_post (g : Env.t) (self : BlackScholes.t) :
  post (BlackScholes.calculate_prices g self)
       (fun '(c, p, self') => self' = BlackScholes.set_prices self c p).
Proof.
  unfold BlackScholes.calculate_prices.
  do 12 (apply post_bind, post_any; intros ?).
  apply post_mret. reflexivity.
Qed.

Lemma calculate_prices_stored (g : Env.t) (self self' : BlackScholes.t) (c p : float64)
    (w : list RuntimeWarning) :
  BlackScholes.calculate_prices g self = Return (c, p, self') w ->
  self' = BlackScholes.set_prices self c p.
Proof. intros Hrun. exact (post_elim _ _ _ _ (calculate_prices_post g self) Hrun). Qed.

(** A call that returns has passed both places where line 84 can raise. *)
Lemma calculate_prices_Return_inv (g : Env.t) (self self' : BlackScholes.t) (c p : float64)
    (w : list RuntimeWarning) :
  BlackScholes.calculate_prices g self = Return (c, p, self') w ->
  ~ zero_division (BlackScholes.current_price self) (BlackScholes.strike self) /\
  ~ pow_overflow (BlackScholes.volatility self).
Proof.
  intros Hrun.
  assert (HK : ~ zero_division (BlackScholes.current_price self) (BlackScholes.strike self)).
  { intros HK. rewrite calculate_prices_zero_strike in Hrun by exact HK. discriminate. }
  split; [exact HK |].
  intros Hs. rewrite calculate_prices_overflow in Hrun by assumption. discriminate.
Qed.

(** ** Claims about the pricer *)

(** C1 (fails on the code).  The claim: on valid parameters the pricer
    returns the closed form with [K] the instance's strike.  The method
    reads the module-level [strike] in both price lines instead.  For the
    instance [bs_50] (strike 50, spot 50, t = 1, sigma = 1, r = 1/2) run
    while the module-level strike is 100, the returned call is the closed
    form minus [25 * exp (-1/2)] and the returned put is the closed form
    plus [25 * exp (-1/2)]; neither is the closed form. *)
Theorem calculate_prices_reads_module_strike :
  exists c p self',
    BlackScholes.calculate_prices env_100 bs_50 = Return (Fin c, Fin p, self') [] /\
    c = Spec.call 1 50 50 1 (1 / 2) - 25 * exp (- (1 / 2 * 1)) /\
    p = Spec.put 1 50 50 1 (1 / 2) + 25 * exp (- (1 / 2 * 1)) /\
    c <> Spec.call 1 50 50 1 (1 / 2) /\
    p <> Spec.put 1 50 50 1 (1 / 2).
Proof.
  do 3 eexists. split; [apply calculate_prices_bs_50 |].
  pose proof exp_half_pos as He.
  unfold code_call, code_put, Spec.call, Spec.put.
  rewrite d1_bs_50, d2_bs_50, Ropp_0, Phi_0. simpl Env.strike.
  repeat split; lra.
Qed.

(** C2 (fails on the code).  The claim: call - put = S - K * exp (-r t)
    with [K] the instance's strike.  The code's prices satisfy parity
    against the module-level [strike]; for [bs_50] under a module-level
    strike of 100 the difference is [50 - 100 * exp (-1/2)], not
    [50 - 50 * exp (-1/2)]. *)
Theorem calculate_prices_parity_module_strike :
  exists c p self',
    BlackScholes.calculate_prices env_100 bs_50 = Return (Fin c, Fin p, self') [] /\
    c - p = 50 - 100 * exp (- (1 / 2 * 1)) /\
    c - p <> 50 - 50 * exp (- (1 / 2 * 1)).
Proof.
  do 3 eexists. split; [apply calculate_prices_bs_50 |].
  pose proof exp_half_pos as He.
  rewrite code_parity. simpl Env.strike. split; lra.
Qed.

(** C9.  Whenever [calculate_prices] returns the pair [(c, p)], the
    instance it leaves behind has [call_price = c] and [put_price = p]
    (and the same five parameters as before). *)
Theorem calculate_prices_stores_returned_pair
    (g : Env.t) (self self' : BlackScholes.t) (c p : float64)
    (w : list RuntimeWarning) :
  BlackScholes.calculate_prices g self = Return (c, p, self') w ->
  BlackScholes.call_price self' = Some c /\
  BlackScholes.put_price self' = Some p /\
  BlackScholes.params self' = BlackScholes.params self.
Proof.
  intros Hrun. apply calculate_prices_stored in Hrun. subst self'. repeat split.
Qed.

Lemma calculate_prices_stores_returned_pair_witness :
  exists c p self',
    BlackScholes.calculate_prices env_100 bs_50 = Return (c, p, self') [] /\
    BlackScholes.call_price self' = Some c /\
    BlackScholes.put_price self' = Some p /\
    BlackScholes.params self' = BlackScholes.params bs_50.
Proof.
  do 3 eexists. split; [apply calculate_prices_bs_50 |].
  apply (calculate_prices_stores_returned_pair env_100 bs_50 _ _ _ []).
  apply calculate_prices_bs_50.
Defined.

Lemma d1_divisor_degenerate (sigma t : R) :
  0 <= t -> t = 0 \/ sigma = 0 ->
  BlackScholes.d1_divisor sigma t = Return (Fin 0) [].
Proof.
  intros Ht Hz. rewrite d1_divisor_nonneg by exact Ht.
  replace (sigma * sqrt t) with 0; [reflexivity |].
  destruct Hz as [-> | ->]; [rewrite sqrt_0 |]; lra.
Qed.

Lemma fdiv_by_zero (x : R) :
  exists d s, fdiv (Fin x) (Fin 0) = Return d [s] /\ ~ is_finite d /\
              (s = DivideByZero \/ s = InvalidValue).
Proof.
  unfold fdiv. destruct (Req_dec_T 0 0) as [_ | H0]; [| contradiction].
  destruct (Req_dec_T x 0).
  - exists NaN, InvalidValue. simpl. tauto.
  - exists (inf_of (sgn x)), DivideByZero. destruct (sgn x); simpl; tauto.
Qed.

Lemma huge_sigma_overflows : DBL_OVERFLOW <= 10 ^ 155 * 10 ^ 155.
Proof.
  rewrite !pow_IZR, <- mult_IZR. apply DBL_OVERFLOW_below. vm_compute. discriminate.
Qed.

(** C5 (fails on the code as stated).  At expiry ([t = 0]) with strike
    100, spot 110, rate 0.05 and the volatility [10^155], all valid, the
    call does not reach the division: [sigma**2] overflows first and line
    84 raises OverflowError. *)
Lemma calculate_prices_degenerate_overflow :
  BlackScholes.calculate_prices env_100 bs_huge_sigma_expiry = Raise OverflowError.
Proof.
  apply calculate_prices_overflow.
  - simpl. lra.
  - simpl. exact huge_sigma_overflows.
Qed.

(** C5 (amended).  With time to maturity 0 or volatility 0 and the other
    parameters valid and of ordinary magnitude (time at most 100, strike
    and spot between [10^-6] and [10^12], volatility at most 100, rate
    between -1 and 1) nothing guards line 84: the divisor
    [sigma * np.sqrt(t)] is 0, the division is carried out, [d1] is not a
    finite number, and the floating-point warning of that division
    (divide-by-zero, or invalid value for 0/0) is among the warnings the
    call returns with. *)
Theorem calculate_prices_degenerate (g : Env.t) (self : BlackScholes.t) :
  let t := val (BlackScholes.time_to_maturity self) in
  let K := BlackScholes.strike self in
  let S := BlackScholes.current_price self in
  let sigma := BlackScholes.volatility self in
  let r := val (BlackScholes.risk_free_rate self) in
  0 <= t <= 100 -> / 10 ^ 6 <= val K <= 10 ^ 12 -> / 10 ^ 6 <= val S <= 10 ^ 12 ->
  0 <= val sigma <= 100 -> -1 <= r <= 1 ->
  t = 0 \/ val sigma = 0 ->
  BlackScholes.d1_divisor (val sigma) t = Return (Fin 0) [] /\
  exists d1 s c p w,
    BlackScholes.compute_d1 t K S sigma r = Return d1 [s] /\
    ~ is_finite d1 /\
    (s = DivideByZero \/ s = InvalidValue) /\
    BlackScholes.calculate_prices g self
      = Return (c, p, BlackScholes.set_prices self c p) w /\
    s ∈ w.
Proof.
  intros t K S sigma r Ht HK HS Hs Hr Hz.
  assert (Hpos : 0 < / 10 ^ 6) by (apply Rinv_0_lt_compat; lra).
  pose proof (d1_divisor_degenerate (val sigma) t (proj1 Ht) Hz) as Hden.
  split; [exact Hden |].
  destruct (fdiv_by_zero (ln (val S / val K) + (r + val sigma ^ 2 / 2) * t))
    as (d1 & s & Hdiv & Hinf & Hsig).
  assert (Hd1 : BlackScholes.compute_d1 t K S sigma r = Return d1 [s]).
  { unfold BlackScholes.compute_d1.
    rewrite d1_dividend_pos by (try apply square_fits_small; lra).
    rewrite bind_mret, Hden, bind_Return. rewrite Hdiv. reflexivity. }
  assert (Hexp : discount_fits r t) by (apply discount_fits_small; nra).
  exists d1, s.
  unfold BlackScholes.calculate_prices. fold t K S sigma r.
  rewrite Hd1. unfold BlackScholes.compute_d2. rewrite Hden.
  rewrite (np_exp_fits _ Hexp).
  destruct d1 as [x | | |]; [simpl in Hinf; tauto | | |];
    do 3 eexists; (split; [reflexivity |]); (split; [exact Hinf |]);
    (split; [exact Hsig |]); (split; [reflexivity |]); apply list_elem_of_here.
Qed.

Lemma calculate_prices_degenerate_witness :
  BlackScholes.d1_divisor (3 / 10) 0 = Return (Fin 0) [] /\
  exists d1 s c p w,
    BlackScholes.compute_d1 0 (PyFloat 100) (PyFloat 110) (PyFloat (3 / 10)) (5 / 100)
      = Return d1 [s] /\
    ~ is_finite d1 /\
    (s = DivideByZero \/ s = InvalidValue) /\
    BlackScholes.calculate_prices env_100 bs_expiry
      = Return (c, p, BlackScholes.set_prices bs_expiry c p) w /\
    s ∈ w.
Proof.
  apply (calculate_prices_degenerate env_100 bs_expiry); simpl; lra.
Defined.

Ltac case_py :=
  repeat match goal with
  | |- context [match ?m with Raise _ => _ | Return _ _ => _ end] =>
      lazymatch m with
      | context [match _ with Raise _ => _ | Return _ _ => _ end] => fail
      | _ => destruct m as [? | ? ?]
      end
  end.

Lemma returned_calculate_prices_ext (g1 g2 : Env.t) (self1 self2 : BlackScholes.t) :
  BlackScholes.params self1 = BlackScholes.params self2 ->
  Env.strike g1 = Env.strike g2 ->
  returned (BlackScholes.calculate_prices g1 self1) =
  returned (BlackScholes.calculate_prices g2 self2).
Proof.
  intros Hp Hg. destruct self1, self2. unfold BlackScholes.params in Hp. simpl in Hp.
  injection Hp as -> -> -> -> ->.
  unfold returned, BlackScholes.calculate_prices. simpl. rewrite Hg.
  unfold mbind, py_bind, mret, py_ret. case_py; reflexivity.
Qed.

(** C6 (fails on the code as stated).  Run on [bs_50], the method changes
    the instance (it stores the two prices on it), and two runs on the same
    five parameter values return different call prices when the
    module-level strike differs (100 against 50). *)
Lemma calculate_prices_not_pure :
  (exists c p self' w,
     BlackScholes.calculate_prices env_100 bs_50 = Return (c, p, self') w /\
     self' <> bs_50) /\
  (exists c1 p1 s1 w1 c2 p2 s2 w2,
     BlackScholes.calculate_prices env_100 bs_50 = Return (c1, p1, s1) w1 /\
     BlackScholes.calculate_prices env_50 bs_50 = Return (c2, p2, s2) w2 /\
     c1 <> c2).
Proof.
  assert (H50 : BlackScholes.calculate_prices env_50 bs_50 =
                Return (Fin (code_call env_50 1 50 50 1 (1 / 2)),
                        Fin (code_put env_50 1 50 50 1 (1 / 2)),
                        BlackScholes.set_prices bs_50
                          (Fin (code_call env_50 1 50 50 1 (1 / 2)))
                          (Fin (code_put env_50 1 50 50 1 (1 / 2)))) [])
    by (apply (calculate_prices_valid env_50 bs_50); concrete).
  split.
  - do 4 eexists. split; [apply calculate_prices_bs_50 |]. discriminate.
  - do 8 eexists. split; [apply calculate_prices_bs_50 |]. split; [apply H50 |].
    intros Heq. injection Heq as Heq. revert Heq.
    pose proof exp_half_pos as He.
    unfold code_call. rewrite d1_bs_50, d2_bs_50, Phi_0. simpl Env.strike. lra.
Qed.

(** C6 (amended).  Two calls on instances with the same five parameter
    values, each made while the module-level strike equals that strike,
    hand back the same outcome: the same pair of prices with the same
    warnings, or the same error.  A call that returns [(c, p)] changes the
    instance only by storing [c] and [p] on it. *)
Theorem calculate_prices_deterministic
    (g1 g2 : Env.t) (self1 self2 : BlackScholes.t) :
  BlackScholes.params self1 = BlackScholes.params self2 ->
  Env.strike g1 = val (BlackScholes.strike self1) ->
  Env.strike g2 = val (BlackScholes.strike self2) ->
  returned (BlackScholes.calculate_prices g1 self1) =
  returned (BlackScholes.calculate_prices g2 self2) /\
  forall c p self' w,
    BlackScholes.calculate_prices g1 self1 = Return (c, p, self') w ->
    self' = BlackScholes.set_prices self1 c p.
Proof.
  intros Hp Hg1 Hg2. split.
  - apply returned_calculate_prices_ext; [exact Hp |].
    rewrite Hg1, Hg2. unfold BlackScholes.params in Hp. congruence.
  - intros c p self' w Hrun. exact (calculate_prices_stored _ _ _ _ _ _ Hrun).
Qed.

Lemma calculate_prices_deterministic_witness :
  returned (BlackScholes.calculate_prices env_50 bs_50) =
  returned (BlackScholes.calculate_prices env_50
              (BlackScholes.set_prices bs_50 NaN NaN)) /\
  forall c p self' w,
    BlackScholes.calculate_prices env_50 bs_50 = Return (c, p, self') w ->
    self' = BlackScholes.set_prices bs_50 c p.
Proof.
  apply (calculate_prices_deterministic env_50 env_50 bs_50
           (BlackScholes.set_prices bs_50 NaN NaN)); reflexivity.
Defined.

(** ** The P&L surface *)

Lemma fsub_Fin_r (c : float64) (q : R) : fsub c (Fin q) = mret (minus_quote c q).
Proof. destruct c; reflexivity. Qed.

Lemma setitem_middle (A B : ndarray) (X Y : list float64) (x y : float64) (i j : nat) :
  i = length A -> j = length X ->
  setitem (A ++ (X ++ y :: Y) :: B) i j x = mret (A ++ (X ++ x :: Y) :: B).
Proof.
  intros Hi Hj. unfold setitem.
  rewrite list_lookup_middle by exact Hi.
  destruct (decide (j < length (X ++ y :: Y))%nat) as [_ | Hn].
  - f_equal. subst i j.
    rewrite (insert_app_r_alt A) by lia. rewrite Nat.sub_diag. simpl. do 2 f_equal.
    rewrite (insert_app_r_alt X) by lia. rewrite Nat.sub_diag. reflexivity.
  - exfalso. apply Hn. rewrite length_app. simpl. lia.
Qed.

Lemma heatmap_cell_middle (g : Env.t) (bs_model : BlackScholes.t) (strike : num)
    (i j : nat) (vol spot : R)
    (A B A' B' : ndarray) (X Y X' Y' : list float64) (y y' : float64) :
  i = length A -> i = length A' -> j = length X -> j = length X' ->
  exists w,
    heatmap_cell g bs_model strike i vol j spot
      (A ++ (X ++ y :: Y) :: B, A' ++ (X' ++ y' :: Y') :: B') =
    Return (A ++ (X ++ call_cell g bs_model strike vol spot :: Y) :: B,
            A' ++ (X' ++ put_cell g bs_model strike vol spot :: Y') :: B') w.
Proof.
  intros HA HA' HX HX'.
  unfold heatmap_cell, call_cell, put_cell, cell_prices.
  set (bs_temp := BlackScholes.__init__ _ strike (NpFloat spot) (NpFloat vol) _).
  destruct (wp_elim _ _ (calculate_prices_returns g bs_temp (fun H => H) (fun H => H)))
    as ([[c p] s'] & w & Hrun & Hs').
  rewrite Hrun, bind_Return. subst s'. cbn [fst snd].
  unfold BlackScholes.get_call_price, BlackScholes.get_put_price.
  cbn [BlackScholes.call_price BlackScholes.put_price BlackScholes.set_prices].
  rewrite bind_mret, fsub_Fin_r, bind_mret.
  rewrite setitem_middle by assumption. rewrite bind_mret.
  rewrite bind_mret, fsub_Fin_r, bind_mret.
  rewrite setitem_middle by assumption. rewrite bind_mret.
  eexists. reflexivity.
Qed.

Lemma snoc_app_cons {A : Type} (X : list A) (x : A) (Y : list A) :
  (X ++ [x]) ++ Y = X ++ x :: Y.
Proof. rewrite <- app_assoc. reflexivity. Qed.

(** The inner loop fills the rest of row [i], left to right. *)
Lemma inner_loop_fills_row (g : Env.t) (bs_model : BlackScholes.t) (strike : num)
    (i : nat) (vol : R) (A B A' B' : ndarray) (spots : list R) :
  i = length A -> i = length A' ->
  forall (j : nat) (X X' : list float64),
    j = length X -> j = length X' ->
    exists w,
      for_enumerate (fun j spot s => heatmap_cell g bs_model strike i vol j spot s)
        j spots
        (A ++ (X ++ replicate (length spots) (Fin 0)) :: B,
         A' ++ (X' ++ replicate (length spots) (Fin 0)) :: B') =
      Return (A ++ (X ++ (call_cell g bs_model strike vol <$> spots)) :: B,
              A' ++ (X' ++ (put_cell g bs_model strike vol <$> spots)) :: B') w.
Proof.
  intros HA HA'. induction spots as [| spot spots IH]; intros j X X' HX HX'.
  - simpl. eexists. reflexivity.
  - simpl.
    destruct (heatmap_cell_middle g bs_model strike i j vol spot A B A' B'
                X (replicate (length spots) (Fin 0))
                X' (replicate (length spots) (Fin 0)) (Fin 0) (Fin 0)
                HA HA' HX HX') as [w Hcell].
    rewrite Hcell, bind_Return.
    destruct (IH (S j) (X ++ [call_cell g bs_model strike vol spot])
                 (X' ++ [put_cell g bs_model strike vol spot])) as [w' Hrest].
    + rewrite length_app. simpl. lia.
    + rewrite length_app. simpl. lia.
    + rewrite !snoc_app_cons in Hrest. rewrite Hrest. eexists. reflexivity.
Qed.

(** The outer loop fills the remaining rows, top to bottom. *)
Lemma outer_loop_fills_rows (g : Env.t) (bs_model : BlackScholes.t) (strike : num)
    (spots vols : list R) :
  forall (i : nat) (A A' : ndarray),
    i = length A -> i = length A' ->
    exists w,
      for_enumerate
        (fun i vol s =>
           for_enumerate (fun j spot s => heatmap_cell g bs_model strike i vol j spot s)
                         O spots s)
        i vols
        (A ++ replicate (length vols) (replicate (length spots) (Fin 0)),
         A' ++ replicate (length vols) (replicate (length spots) (Fin 0))) =
      Return (A ++ surface (call_cell g bs_model strike) spots vols,
              A' ++ surface (put_cell g bs_model strike) spots vols) w.
Proof.
  induction vols as [| vol vols IH]; intros i A A' HA HA'.
  - simpl. eexists. reflexivity.
  - simpl.
    destruct (inner_loop_fills_row g bs_model strike i vol A
                (replicate (length vols) (replicate (length spots) (Fin 0))) A'
                (replicate (length vols) (replicate (length spots) (Fin 0)))
                spots HA HA' O [] [] eq_refl eq_refl) as [w Hrow].
    simpl in Hrow. rewrite Hrow, bind_Return.
    destruct (IH (S i) (A ++ [call_cell g bs_model strike vol <$> spots])
                 (A' ++ [put_cell g bs_model strike vol <$> spots])) as [w' Hrest].
    + rewrite length_app. simpl. lia.
    + rewrite length_app. simpl. lia.
    + rewrite !snoc_app_cons in Hrest. rewrite Hrest. eexists. reflexivity.
Qed.

(** The surface loop returns the two matrices cell by cell. *)
Lemma plot_heatmap_surface (g : Env.t) (bs_model : BlackScholes.t)
    (spot_range vol_range : list R) (strike : num) :
  exists w,
    plot_heatmap g bs_model spot_range vol_range strike =
    Return (surface (call_cell g bs_model strike) spot_range vol_range,
            surface (put_cell g bs_model strike) spot_range vol_range) w.
Proof.
  exact (outer_loop_fills_rows g bs_model strike spot_range vol_range O [] []
           eq_refl eq_refl).
Qed.

Lemma surface_lookup (cell : R -> R -> float64) (spot_range vol_range : list R)
    (i j : nat) (vol spot : R) :
  vol_range !! i = Some vol -> spot_range !! j = Some spot ->
  surface cell spot_range vol_range !! i ≫= (.!! j) = Some (cell vol spot).
Proof.
  intros Hi Hj. unfold surface.
  rewrite list_lookup_fmap, Hi. simpl.
  rewrite list_lookup_fmap, Hj. reflexivity.
Qed.

Lemma surface_shape (cell : R -> R -> float64) (spot_range vol_range : list R) :
  shape (surface cell spot_range vol_range) (length vol_range) (length spot_range).
Proof.
  unfold shape, surface. split.
  - apply length_fmap.
  - intros row Hrow. apply list_elem_of_fmap in Hrow as (vol & -> & _).
    apply length_fmap.
Qed.

(** C3.  The surface loop returns, and for every index pair inside the
    two axes the cell [call_pnl[i][j]] is the call price that
    [calculate_prices] returns for the instance built from [spot_range[j]],
    [vol_range[i]], the strike argument and the base model's time to
    maturity and rate, minus [market_call_quote]; [put_pnl] likewise with
    the put price and [market_put_quote].  A finite price [x] gives the
    cell [x - quote]; an infinite or NaN price is left as it is by the
    subtraction. *)
Theorem plot_heatmap_cells (g : Env.t) (bs_model : BlackScholes.t)
    (spot_range vol_range : list R) (strike : num) :
  exists call_pnl put_pnl w,
    plot_heatmap g bs_model spot_range vol_range strike = Return (call_pnl, put_pnl) w /\
    forall (i j : nat) (vol spot : R),
      vol_range !! i = Some vol -> spot_range !! j = Some spot ->
      exists c p bs_temp w',
        BlackScholes.calculate_prices g
          (BlackScholes.__init__ (BlackScholes.time_to_maturity bs_model) strike
                                 (NpFloat spot) (NpFloat vol)
                                 (BlackScholes.risk_free_rate bs_model))
          = Return (c, p, bs_temp) w' /\
        call_pnl !! i ≫= (.!! j) = Some (minus_quote c (Env.market_call_quote g)) /\
        put_pnl !! i ≫= (.!! j) = Some (minus_quote p (Env.market_put_quote g)).
Proof.
  destruct (plot_heatmap_surface g bs_model spot_range vol_range strike) as [w Hrun].
  do 3 eexists. split; [exact Hrun |].
  intros i j vol spot Hi Hj.
  set (bs_temp := BlackScholes.__init__ _ strike (NpFloat spot) (NpFloat vol) _).
  destruct (wp_elim _ _ (calculate_prices_returns g bs_temp (fun H => H) (fun H => H)))
    as ([[c p] s'] & w' & Hcell & _).
  exists c, p, s', w'. split; [exact Hcell |].
  rewrite !(surface_lookup _ _ _ i j vol spot Hi Hj).
  unfold call_cell, put_cell, cell_prices. fold bs_temp. rewrite Hcell.
  split; reflexivity.
Qed.

Lemma plot_heatmap_cells_witness :
  exists call_pnl put_pnl w,
    plot_heatmap env_100 bs_50 [90; 110] [1 / 5; 2 / 5] (PyFloat 100)
      = Return (call_pnl, put_pnl) w /\
    exists c p bs_temp w',
      BlackScholes.calculate_prices env_100
        (BlackScholes.__init__ (PyFloat 1) (PyFloat 100) (NpFloat 110) (NpFloat (1 / 5))
                               (PyFloat (1 / 2)))
        = Return (c, p, bs_temp) w' /\
      call_pnl !! O ≫= (.!! 1%nat) = Some (minus_quote c (141 / 10)) /\
      put_pnl !! O ≫= (.!! 1%nat) = Some (minus_quote p (92 / 10)).
Proof.
  destruct (plot_heatmap_cells env_100 bs_50 [90; 110] [1 / 5; 2 / 5] (PyFloat 100))
    as (call_pnl & put_pnl & w & Hrun & Hcells).
  exists call_pnl, put_pnl, w. split; [exact Hrun |].
  apply (Hcells O 1%nat (1 / 5) 110); reflexivity.
Defined.

(** C7.  The surface loop raises nothing and returns two matrices with
    [len(vol_range)] rows of [len(spot_range)] entries each.  With an empty
    [vol_range] the matrices have no row; with an empty [spot_range] every
    row is empty. *)
Theorem plot_heatmap_shape (g : Env.t) (bs_model : BlackScholes.t)
    (spot_range vol_range : list R) (strike : num) :
  exists call_pnl put_pnl w,
    plot_heatmap g bs_model spot_range vol_range strike = Return (call_pnl, put_pnl) w /\
    shape call_pnl (length vol_range) (length spot_range) /\
    shape put_pnl (length vol_range) (length spot_range) /\
    (vol_range = [] -> call_pnl = [] /\ put_pnl = []) /\
    (spot_range = [] -> forall row, row ∈ call_pnl \/ row ∈ put_pnl -> row = []).
Proof.
  destruct (plot_heatmap_surface g bs_model spot_range vol_range strike) as [w Hrun].
  do 3 eexists. split; [exact Hrun |].
  pose proof (surface_shape (call_cell g bs_model strike) spot_range vol_range) as HC.
  pose proof (surface_shape (put_cell g bs_model strike) spot_range vol_range) as HP.
  split; [exact HC |]. split; [exact HP |]. split.
  - intros ->. split; reflexivity.
  - intros -> row [Hrow | Hrow]; apply nil_length_inv;
      [apply (proj2 HC) | apply (proj2 HP)]; exact Hrow.
Qed.

Lemma plot_heatmap_shape_witness :
  exists call_pnl put_pnl w,
    plot_heatmap env_100 bs_50 [] [1 / 5; 2 / 5] (PyFloat 0) = Return (call_pnl, put_pnl) w /\
    shape call_pnl 2 0 /\
    shape put_pnl 2 0 /\
    (forall row, row ∈ call_pnl \/ row ∈ put_pnl -> row = []).
Proof.
  destruct (plot_heatmap_shape env_100 bs_50 [] [1 / 5; 2 / 5] (PyFloat 0))
    as (call_pnl & put_pnl & w & Hrun & HC & HP & _ & Hrows).
  exists call_pnl, put_pnl, w. split; [exact Hrun |].
  split; [exact HC |]. split; [exact HP |]. apply Hrows. reflexivity.
Defined.

(** ** The equity path *)

Lemma cumsum_from_length (l : list R) (acc : R) : length (cumsum_from acc l) = length l.
Proof. revert acc. induction l as [| x l IH]; intros acc; simpl; [| rewrite IH]; reflexivity. Qed.



Lemma np_cumsum_length (l : list R) : length (np_cumsum l) = length l.
Proof. destruct l as [| x l]; simpl; [| rewrite cumsum_from_length]; reflexivity. Qed.









Lemma nonempty_last {A : Type} (d : A) (paths : list (list A)) :
  Forall (fun path => path <> []) paths ->
  Forall2 (fun path x => last path = Some x) paths
          ((fun path => default d (last path)) <$> paths).
Proof.
  induction 1 as [| path paths Hpath _ IH]; [constructor |].
  rewrite fmap_cons. constructor; [| exact IH].
  destruct (last path) as [x |] eqn:Hlast; [reflexivity |].
  apply last_None in Hlast. contradiction.
Qed.

Section SimulationFacts.

Context {rng : Type}.
Variable GeometricBrownianMotion : R -> R -> R -> R -> R -> rng -> list R * rng.

Lemma sampled_paths_length (g : Env.t) (bs_model : BlackScholes.t) (n : nat) (s : rng) :
  length (sampled_paths GeometricBrownianMotion g bs_model n s) = n.
Proof.
  revert s. induction n as [| n IH]; intros s; simpl; [reflexivity |].
  rewrite IH. reflexivity.
Qed.

(** The sampler is called with the model's time to maturity and nothing
    else of the model. *)
Lemma sampled_paths_ext (g : Env.t) (bs1 bs2 : BlackScholes.t) (n : nat) (s : rng) :
  val (BlackScholes.time_to_maturity bs1) = val (BlackScholes.time_to_maturity bs2) ->
  sampled_paths GeometricBrownianMotion g bs1 n s =
  sampled_paths GeometricBrownianMotion g bs2 n s.
Proof.
  intros Ht. revert s. induction n as [| n IH]; intros s; simpl; [reflexivity |].
  rewrite Ht, IH. reflexivity.
Qed.

Lemma rng_after_ext (g : Env.t) (bs1 bs2 : BlackScholes.t) (n : nat) (s : rng) :
  val (BlackScholes.time_to_maturity bs1) = val (BlackScholes.time_to_maturity bs2) ->
  rng_after GeometricBrownianMotion g bs1 n s = rng_after GeometricBrownianMotion g bs2 n s.
Proof.
  intros Ht. revert s. induction n as [| n IH]; intros s; simpl; [reflexivity |].
  rewrite Ht, IH. reflexivity.
Qed.

Lemma trial_ext (g : Env.t) (bs1 bs2 : BlackScholes.t) (premium : R) (st : list R * rng) :
  val (BlackScholes.time_to_maturity bs1) = val (BlackScholes.time_to_maturity bs2) ->
  trial GeometricBrownianMotion g bs1 premium st =
  trial GeometricBrownianMotion g bs2 premium st.
Proof. intros Ht. unfold trial, sample_path. rewrite Ht. reflexivity. Qed.

Lemma trial_loop_ext (g : Env.t) (bs1 bs2 : BlackScholes.t) (premium : R)
    (n : nat) (st : list R * rng) :
  val (BlackScholes.time_to_maturity bs1) = val (BlackScholes.time_to_maturity bs2) ->
  for_range n (trial GeometricBrownianMotion g bs1 premium) st =
  for_range n (trial GeometricBrownianMotion g bs2 premium) st.
Proof.
  intros Ht. revert st. induction n as [| n IH]; intros st; simpl; [reflexivity |].
  rewrite (trial_ext g bs1 bs2 premium st Ht).
  destruct (trial _ g bs2 premium st) as [e | st' w]; [reflexivity |].
  rewrite !bind_Return, IH. reflexivity.
Qed.

(** One trial: one sampler call; a payoff is appended when the sampled
    path has a last point. *)
Lemma trial_returns (g : Env.t) (bs_model : BlackScholes.t) (premium : R)
    (pls : list R) (s : rng) (x : R) :
  Env.time_steps g <> 0%Z ->
  let sample :=
    GeometricBrownianMotion (Env.current_price g) (Env.risk_free_rate g)
      (Env.volatility g) (1 / IZR (Env.time_steps g))
      (val (BlackScholes.time_to_maturity bs_model)) s in
  last sample.1 = Some x ->
  trial GeometricBrownianMotion g bs_model premium (pls, s) =
  Return (pls ++ [payoff g premium x], sample.2) [].
Proof.
  intros Hts sample Hlast. unfold trial, sample_path. cbn [fst snd].
  rewrite py_truediv_nonzero by (apply not_0_IZR; exact Hts).
  rewrite !bind_mret. fold sample.
  destruct sample as [path s1]. cbn [fst snd] in *.
  unfold terminal_price. rewrite Hlast, bind_mret. reflexivity.
Qed.

Lemma trial_zero_time_steps (g : Env.t) (bs_model : BlackScholes.t) (premium : R)
    (st : list R * rng) :
  Env.time_steps g = 0%Z ->
  trial GeometricBrownianMotion g bs_model premium st = Raise ZeroDivisionError.
Proof.
  intros Hts. unfold trial, sample_path. rewrite Hts, py_truediv_zero. reflexivity.
Qed.

Lemma trial_empty_path (g : Env.t) (bs_model : BlackScholes.t)
    (premium : R) (pls : list R) (s : rng) :
  Env.time_steps g <> 0%Z ->
  (GeometricBrownianMotion (Env.current_price g) (Env.risk_free_rate g) (Env.volatility g)
     (1 / IZR (Env.time_steps g)) (val (BlackScholes.time_to_maturity bs_model)) s).1 = [] ->
  trial GeometricBrownianMotion g bs_model premium (pls, s) = Raise IndexError.
Proof.
  intros Hts Hpath. unfold trial, sample_path.
  rewrite py_truediv_nonzero by (apply not_0_IZR; exact Hts).
  rewrite !bind_mret. cbn [snd].
  destruct (GeometricBrownianMotion _ _ _ _ _ s) as [path s1]. simpl in Hpath. subst path.
  reflexivity.
Qed.

(** A trial that returns has made one sampler call and appended the payoff
    of the last point of the sampled path. *)
Lemma trial_post (g : Env.t) (bs_model : BlackScholes.t) (premium : R)
    (pls : list R) (s : rng) :
  let sample :=
    GeometricBrownianMotion (Env.current_price g) (Env.risk_free_rate g)
      (Env.volatility g) (1 / IZR (Env.time_steps g))
      (val (BlackScholes.time_to_maturity bs_model)) s in
  post (trial GeometricBrownianMotion g bs_model premium (pls, s))
       (fun st => exists x, last sample.1 = Some x /\
                            st = (pls ++ [payoff g premium x], sample.2)).
Proof.
  intros sample.
  destruct (Z.eq_dec (Env.time_steps g) 0%Z) as [Hts | Hts].
  - rewrite trial_zero_time_steps by exact Hts. exact I.
  - destruct (last sample.1) as [x |] eqn:Hlast.
    + rewrite (trial_returns g bs_model premium pls s x Hts Hlast).
      exists x. split; reflexivity.
    + apply last_None in Hlast. rewrite trial_empty_path by assumption. exact I.
Qed.

(** The trial loop appends one payoff per sampled path, in order, and
    leaves the generator in the state after that many calls. *)
Lemma trial_loop_returns (g : Env.t) (bs_model : BlackScholes.t) (premium : R) :
  Env.time_steps g <> 0%Z ->
  forall (n : nat) (pls : list R) (s : rng) (terminal : list R),
    Forall2 (fun path x => last path = Some x)
            (sampled_paths GeometricBrownianMotion g bs_model n s) terminal ->
    for_range n (trial GeometricBrownianMotion g bs_model premium) (pls, s) =
    Return (pls ++ (payoff g premium <$> terminal),
            rng_after GeometricBrownianMotion g bs_model n s) [].
Proof.
  intros Hts. induction n as [| n IH]; intros pls s terminal Hall.
  - simpl in Hall. inversion Hall; subst. simpl. rewrite app_nil_r. reflexivity.
  - cbn [sampled_paths] in Hall. inversion Hall as [| path x paths xs Hlast Hrest]; subst.
    cbn [for_range rng_after].
    rewrite (trial_returns g bs_model premium pls s x Hts Hlast), bind_Return.
    rewrite (IH _ _ xs Hrest). rewrite fmap_cons, <- app_assoc. reflexivity.
Qed.

(** Whatever the sampler does, a trial loop that returns has done so. *)
Lemma trial_loop_post (g : Env.t) (bs_model : BlackScholes.t) (premium : R)
    (n : nat) (pls : list R) (s : rng) :
  post (for_range n (trial GeometricBrownianMotion g bs_model premium) (pls, s))
       (fun st => exists terminal,
                    Forall2 (fun path x => last path = Some x)
                            (sampled_paths GeometricBrownianMotion g bs_model n s) terminal /\
                    st = (pls ++ (payoff g premium <$> terminal),
                          rng_after GeometricBrownianMotion g bs_model n s)).
Proof.
  revert pls s. induction n as [| n IH]; intros pls s.
  - simpl. exists []. split; [constructor | rewrite app_nil_r; reflexivity].
  - cbn [for_range sampled_paths rng_after].
    pose proof (trial_post g bs_model premium pls s) as Htrial. cbv zeta in Htrial.
    destruct (trial _ g bs_model premium (pls, s)) as [e | st w]; [exact I |].
    simpl in Htrial. destruct Htrial as (x & Hlast & ->).
    rewrite bind_Return.
    specialize (IH (pls ++ [payoff g premium x])
                   (GeometricBrownianMotion (Env.current_price g) (Env.risk_free_rate g)
                      (Env.volatility g) (1 / IZR (Env.time_steps g))
                      (val (BlackScholes.time_to_maturity bs_model)) s).2).
    destruct (for_range n _ _) as [e | st w']; [exact I |].
    simpl in IH. destruct IH as (terminal & Hall & ->).
    simpl. exists (x :: terminal). split; [constructor; assumption |].
    rewrite fmap_cons, <- app_assoc. reflexivity.
Qed.

(** A run that returns: the pricer call of line 174 returned, every
    sampled path had a last point, and the equity path is the running sum
    of the payoffs of those points. *)
Lemma plot_account_equity_Return_inv (g : Env.t) (bs_model : BlackScholes.t) (N : Z)
    (s s' : rng) (equity : list R) (w : list RuntimeWarning) :
  plot_account_equity GeometricBrownianMotion g bs_model N s = Return (equity, s') w ->
  let premium := Env.market_call_quote g * IZR (Env.amount_brought g) in
  exists terminal,
    Forall2 (fun path x => last path = Some x)
            (sampled_paths GeometricBrownianMotion g bs_model (Z.to_nat N) s) terminal /\
    equity = np_cumsum (payoff g premium <$> terminal) /\
    s' = rng_after GeometricBrownianMotion g bs_model (Z.to_nat N) s.
Proof.
  intros Hrun premium. unfold plot_account_equity in Hrun. fold premium in Hrun.
  destruct (BlackScholes.calculate_prices g bs_model) as [e | [[c p] bs'] w0] eqn:Hprice;
    [discriminate |].
  apply calculate_prices_stored in Hprice. subst bs'.
  rewrite bind_Return in Hrun.
  pose proof (trial_loop_post g (BlackScholes.set_prices bs_model c p) premium
                (Z.to_nat N) [] s) as Hloop.
  destruct (for_range _ _ _) as [e | [pls s1] w1]; [discriminate |].
  simpl in Hloop. destruct Hloop as (terminal & Hall & Hst).
  injection Hst as -> ->.
  rewrite bind_Return in Hrun. injection Hrun as <- <- _.
  exists terminal.
  rewrite (sampled_paths_ext g bs_model (BlackScholes.set_prices bs_model c p)) by reflexivity.
  rewrite (rng_after_ext g bs_model (BlackScholes.set_prices bs_model c p)) by reflexivity.
  split; [exact Hall |]. split; reflexivity.
Qed.

(** When the pricer call of line 174 returns, [time_steps] is not zero and
    every sampled path has a last point, the run returns the running sums
    of the payoffs. *)
Lemma plot_account_equity_run (g : Env.t) (bs_model bs' : BlackScholes.t)
    (c p : float64) (w0 : list RuntimeWarning) (N : Z) (s : rng) (terminal : list R) :
  BlackScholes.calculate_prices g bs_model = Return (c, p, bs') w0 ->
  Env.time_steps g <> 0%Z ->
  Forall2 (fun path x => last path = Some x)
          (sampled_paths GeometricBrownianMotion g bs_model (Z.to_nat N) s) terminal ->
  let premium := Env.market_call_quote g * IZR (Env.amount_brought g) in
  plot_account_equity GeometricBrownianMotion g bs_model N s =
  Return (np_cumsum (payoff g premium <$> terminal),
          rng_after GeometricBrownianMotion g bs_model (Z.to_nat N) s) w0.
Proof.
  intros Hprice Hts Hall premium. unfold plot_account_equity.
  rewrite Hprice, bind_Return. fold premium.
  apply calculate_prices_stored in Hprice. subst bs'.
  rewrite (sampled_paths_ext g bs_model (BlackScholes.set_prices bs_model c p)) in Hall
    by reflexivity.
  rewrite (trial_loop_returns g _ premium Hts _ [] s terminal Hall), bind_Return.
  rewrite (rng_after_ext g (BlackScholes.set_prices bs_model c p) bs_model) by reflexivity.
  simpl. rewrite app_nil_r. reflexivity.
Qed.

End SimulationFacts.

Section SimulationClaims.

Context {rng : Type}.
Variable GeometricBrownianMotion : R -> R -> R -> R -> R -> rng -> list R * rng.




End SimulationClaims.







(** * Further properties of the code *)

(** ** The pricer: errors, edge inputs, repeated calls *)

(** [calculate_prices] raises in two cases only, both on line 84:
    ZeroDivisionError when spot and strike are Python floats and the strike
    is zero, and otherwise OverflowError when the volatility is a Python
    float whose square overflows. *)
Theorem calculate_prices_raises_iff (g : Env.t) (self : BlackScholes.t) (e : PyErr) :
  BlackScholes.calculate_prices g self = Raise e <->
  (e = ZeroDivisionError /\
   zero_division (BlackScholes.current_price self) (BlackScholes.strike self)) \/
  (e = OverflowError /\
   ~ zero_division (BlackScholes.current_price self) (BlackScholes.strike self) /\
   pow_overflow (BlackScholes.volatility self)).
Proof.
  split.
  - intros Hrun.
    destruct (zero_division_dec (BlackScholes.current_price self)
                                (BlackScholes.strike self)) as [HK | HK].
    + rewrite calculate_prices_zero_strike in Hrun by exact HK.
      injection Hrun as <-. left. split; [reflexivity | exact HK].
    + destruct (pow_overflow_dec (BlackScholes.volatility self)) as [Hs | Hs].
      * rewrite calculate_prices_overflow in Hrun by assumption.
        injection Hrun as <-. right. repeat split; assumption.
      * pose proof (calculate_prices_returns g self HK Hs) as Hwp.
        rewrite Hrun in Hwp. contradiction.
  - intros [[-> HK] | (-> & HK & Hs)].
    + apply calculate_prices_zero_strike, HK.
    + apply calculate_prices_overflow; assumption.
Qed.

Lemma returned_Return (c p : float64) (self : BlackScholes.t) (w : list RuntimeWarning) :
  returned (Return (c, p, self) w) = Return (c, p) w.
Proof. unfold returned. rewrite bind_Return. simpl. rewrite app_nil_r. reflexivity. Qed.

Lemma returned_Return_inv (m : py (float64 * float64 * BlackScholes.t))
    (c p : float64) (w : list RuntimeWarning) :
  returned m = Return (c, p) w -> exists self, m = Return (c, p, self) w.
Proof.
  destruct m as [e | [[c' p'] self] w']; [discriminate |].
  rewrite returned_Return. intros [= -> -> ->]. exists self. reflexivity.
Qed.

Lemma inv_million_pos : 0 < / 10 ^ 6.
Proof. apply Rinv_0_lt_compat. lra. Qed.

(** Inside the ordinary bounds the parameters are valid and neither the
    square of the volatility nor the discount factor overflows. *)
Lemma ordinary_fits (t K S : R) (sigma : num) (r : R) :
  ordinary t K S (val sigma) r ->
  0 < t /\ 0 < K /\ 0 < S /\ 0 < val sigma /\ square_fits sigma /\ discount_fits r t.
Proof.
  intros (Ht & HK & HS & Hs & Hr). pose proof inv_million_pos as Hpos.
  repeat split; try lra.
  - apply square_fits_small. lra.
  - apply discount_fits_small. nra.
Qed.

(** On valid parameters of ordinary magnitude, and while the module-level
    strike equals the instance's strike, [calculate_prices] returns the
    closed-form Black-Scholes call and put of the instance's five
    parameters, without any warning. *)
Theorem calculate_prices_matching_strike (g : Env.t) (self : BlackScholes.t) :
  let t := val (BlackScholes.time_to_maturity self) in
  let K := val (BlackScholes.strike self) in
  let S := val (BlackScholes.current_price self) in
  let sigma := val (BlackScholes.volatility self) in
  let r := val (BlackScholes.risk_free_rate self) in
  ordinary t K S sigma r ->
  Env.strike g = K ->
  returned (BlackScholes.calculate_prices g self)
  = Return (Fin (Spec.call t K S sigma r), Fin (Spec.put t K S sigma r)) [].
Proof.
  intros t K S sigma r Hord Hg.
  apply ordinary_fits in Hord as (Ht & HK & HS & Hs & Hfit & Hexp).
  rewrite (calculate_prices_closed_form g self) by assumption.
  apply returned_Return.
Qed.

Lemma ordinary_bs_50 : ordinary 1 50 50 1 (1 / 2).
Proof. pose proof inv_million_pos. unfold ordinary. lra. Qed.

Lemma calculate_prices_matching_strike_witness :
  returned (BlackScholes.calculate_prices env_50 bs_50)
  = Return (Fin (Spec.call 1 50 50 1 (1 / 2)), Fin (Spec.put 1 50 50 1 (1 / 2))) [].
Proof.
  apply (calculate_prices_matching_strike env_50 bs_50); [exact ordinary_bs_50 | reflexivity].
Defined.

Lemma calculate_prices_bs_50_env_50 :
  BlackScholes.calculate_prices env_50 bs_50 =
  Return (Fin (Spec.call 1 50 50 1 (1 / 2)), Fin (Spec.put 1 50 50 1 (1 / 2)),
          BlackScholes.set_prices bs_50 (Fin (Spec.call 1 50 50 1 (1 / 2)))
                                        (Fin (Spec.put 1 50 50 1 (1 / 2)))) [].
Proof.
  apply (calculate_prices_closed_form env_50 bs_50); concrete.
Qed.

(** A negative time to maturity (the parameters otherwise of ordinary
    magnitude, strike and spot positive) raises nothing: [np.sqrt] of it
    is NaN, once on line 84 and once on line 85, and both prices come back
    NaN with the two invalid-value warnings. *)
Theorem calculate_prices_negative_time (g : Env.t) (self : BlackScholes.t) :
  let t := val (BlackScholes.time_to_maturity self) in
  let K := val (BlackScholes.strike self) in
  let S := val (BlackScholes.current_price self) in
  let sigma := val (BlackScholes.volatility self) in
  let r := val (BlackScholes.risk_free_rate self) in
  -100 <= t < 0 ->
  / 10 ^ 6 <= K <= 10 ^ 12 -> / 10 ^ 6 <= S <= 10 ^ 12 ->
  -100 <= sigma <= 100 -> -1 <= r <= 1 ->
  - 10 ^ 12 <= Env.strike g <= 10 ^ 12 ->
  returned (BlackScholes.calculate_prices g self)
  = Return (NaN, NaN) [InvalidValue; InvalidValue].
Proof.
  intros t K S sigma r Ht HK HS Hs Hr Hg. pose proof inv_million_pos as Hpos.
  assert (Hden : BlackScholes.d1_divisor sigma t = Return NaN [InvalidValue]).
  { unfold BlackScholes.d1_divisor, np_sqrt.
    destruct (Rlt_dec _ 0) as [_ | Hn]; [reflexivity | lra]. }
  assert (Hexp : discount_fits r t) by (apply discount_fits_small; nra).
  unfold BlackScholes.calculate_prices, BlackScholes.compute_d1, BlackScholes.compute_d2.
  fold t K S sigma r.
  rewrite d1_dividend_pos by (try apply square_fits_small; fold K S sigma; lra).
  rewrite bind_mret, Hden. rewrite (np_exp_fits _ Hexp). reflexivity.
Qed.

Lemma calculate_prices_negative_time_witness :
  returned (BlackScholes.calculate_prices env_100
              (BlackScholes.__init__ (PyFloat (-1)) (PyFloat 100) (PyFloat 100)
                                     (PyFloat (3 / 10)) (PyFloat (5 / 100))))
  = Return (NaN, NaN) [InvalidValue; InvalidValue].
Proof.
  pose proof inv_million_pos.
  apply (calculate_prices_negative_time env_100); simpl; lra.
Defined.

(** A spot of zero (the other parameters valid and of ordinary magnitude):
    [np.log(0)] is minus infinity with a divide-by-zero warning, and the
    call comes back 0 and the put [strike * exp (-r t)], with the
    module-level strike. *)
Theorem calculate_prices_zero_spot (g : Env.t) (self : BlackScholes.t) :
  let t := val (BlackScholes.time_to_maturity self) in
  let K := val (BlackScholes.strike self) in
  let sigma := val (BlackScholes.volatility self) in
  let r := val (BlackScholes.risk_free_rate self) in
  / 10 ^ 6 <= t <= 100 -> / 10 ^ 6 <= K <= 10 ^ 12 ->
  val (BlackScholes.current_price self) = 0 ->
  / 10 ^ 6 <= sigma <= 100 -> -1 <= r <= 1 ->
  - 10 ^ 12 <= Env.strike g <= 10 ^ 12 ->
  returned (BlackScholes.calculate_prices g self)
  = Return (Fin 0, Fin (Env.strike g * exp (- (r * t)))) [DivideByZero].
Proof.
  intros t K sigma r Ht HK HS Hs Hr Hg. pose proof inv_million_pos as Hpos.
  assert (Hdiv : 0 < sigma * sqrt t) by (apply sigma_sqrt_pos; lra).
  assert (Hexp : discount_fits r t) by (apply discount_fits_small; nra).
  unfold BlackScholes.calculate_prices, BlackScholes.compute_d1, BlackScholes.compute_d2,
    BlackScholes.d1_dividend.
  fold t K sigma r. rewrite truediv_nonzero by (fold K; lra). rewrite bind_mret.
  rewrite HS. replace (0 / val (BlackScholes.strike self)) with 0 by (field; fold K; lra).
  rewrite drift_term_fits by (apply square_fits_small; fold sigma; lra).
  rewrite d1_divisor_nonneg by lra.
  rewrite (np_exp_fits _ Hexp).
  unfold np_log. destruct (total_order_T 0 0) as [[H | _] | H]; [lra | | lra].
  unfold returned. cbn. fold sigma. rewrite (sgn_pos _ Hdiv). cbn.
  do 2 f_equal; f_equal; lra.
Qed.

Lemma calculate_prices_zero_spot_witness :
  returned (BlackScholes.calculate_prices env_100
              (BlackScholes.__init__ (PyFloat 1) (PyFloat 100) (NpFloat 0)
                                     (NpFloat (3 / 10)) (PyFloat (5 / 100))))
  = Return (Fin 0, Fin (100 * exp (- (5 / 100 * 1)))) [DivideByZero].
Proof.
  pose proof inv_million_pos.
  apply (calculate_prices_zero_spot env_100); simpl; lra.
Defined.

(** A negative spot (the parameters otherwise of ordinary magnitude,
    strike positive, time not negative): [np.log] of the negative ratio is
    NaN, and both prices come back NaN with one invalid-value warning. *)
Theorem calculate_prices_negative_spot (g : Env.t) (self : BlackScholes.t) :
  let t := val (BlackScholes.time_to_maturity self) in
  let K := val (BlackScholes.strike self) in
  let S := val (BlackScholes.current_price self) in
  let sigma := val (BlackScholes.volatility self) in
  let r := val (BlackScholes.risk_free_rate self) in
  0 <= t <= 100 -> / 10 ^ 6 <= K <= 10 ^ 12 ->
  - 10 ^ 12 <= S <= - / 10 ^ 6 ->
  -100 <= sigma <= 100 -> -1 <= r <= 1 ->
  - 10 ^ 12 <= Env.strike g <= 10 ^ 12 ->
  returned (BlackScholes.calculate_prices g self) = Return (NaN, NaN) [InvalidValue].
Proof.
  intros t K S sigma r Ht HK HS Hs Hr Hg. pose proof inv_million_pos as Hpos.
  assert (Hq : S / K < 0).
  { unfold Rdiv. assert (0 < / K) by (apply Rinv_0_lt_compat; lra). nra. }
  assert (Hexp : discount_fits r t) by (apply discount_fits_small; nra).
  unfold BlackScholes.calculate_prices, BlackScholes.compute_d1, BlackScholes.compute_d2,
    BlackScholes.d1_dividend.
  fold t K S sigma r. rewrite truediv_nonzero by (fold K; lra). rewrite bind_mret.
  fold K S.
  rewrite drift_term_fits by (apply square_fits_small; fold sigma; lra).
  rewrite d1_divisor_nonneg by lra.
  rewrite (np_exp_fits _ Hexp).
  unfold np_log. destruct (total_order_T _ 0) as [[_ | H] | H]; [| lra | lra].
  reflexivity.
Qed.

Lemma calculate_prices_negative_spot_witness :
  returned (BlackScholes.calculate_prices env_100
              (BlackScholes.__init__ (PyFloat 1) (PyFloat 100) (NpFloat (-5))
                                     (NpFloat (3 / 10)) (PyFloat (5 / 100))))
  = Return (NaN, NaN) [InvalidValue].
Proof.
  pose proof inv_million_pos.
  apply (calculate_prices_negative_spot env_100); simpl; lra.
Defined.

(** Calling [calculate_prices] again on the instance a call left behind
    returns the same prices with the same warnings and leaves the instance
    as it is. *)
Theorem calculate_prices_idempotent (g : Env.t) (self self' : BlackScholes.t)
    (c p : float64) (w : list RuntimeWarning) :
  BlackScholes.calculate_prices g self = Return (c, p, self') w ->
  BlackScholes.calculate_prices g self' = Return (c, p, self') w.
Proof.
  intros Hrun.
  pose proof (calculate_prices_stored _ _ _ _ _ _ Hrun) as Hs. subst self'.
  pose proof (returned_calculate_prices_ext g g self (BlackScholes.set_prices self c p)
                eq_refl eq_refl) as Hext.
  rewrite Hrun, returned_Return in Hext. symmetry in Hext.
  apply returned_Return_inv in Hext as [s2 Hrun2].
  rewrite Hrun2. apply calculate_prices_stored in Hrun2. subst s2. reflexivity.
Qed.

Lemma calculate_prices_idempotent_witness :
  exists c p self',
    BlackScholes.calculate_prices env_100 bs_50 = Return (c, p, self') [] /\
    BlackScholes.calculate_prices env_100 self' = Return (c, p, self') [].
Proof.
  do 3 eexists. split; [apply calculate_prices_bs_50 |].
  apply (calculate_prices_idempotent env_100 bs_50). apply calculate_prices_bs_50.
Defined.

(** ** The surface: what the cells hold *)

(** Where the square does not raise, the drift term of a Python-float
    volatility is that of the [numpy.float64] of the same value. *)
Lemma drift_term_np (t : R) (sigma : num) (r : R) :
  ~ pow_overflow sigma ->
  BlackScholes.drift_term t sigma r = BlackScholes.drift_term t (NpFloat (val sigma)) r.
Proof.
  intros Hs. destruct sigma as [x | x]; [| reflexivity].
  simpl in Hs. unfold BlackScholes.drift_term, py_pow2, np_pow2. cbn [val].
  destruct (Rle_dec _ _); [contradiction |].
  rewrite !bind_mret. rewrite fdiv_Fin by lra. rewrite bind_mret.
  unfold fadd. rewrite bind_mret. reflexivity.
Qed.

(** With a nonzero strike and a square that does not raise, the run-time
    type of spot and volatility does not matter: the grid instance built
    from an instance's own spot and volatility gets the same outcome. *)
Lemma returned_calculate_prices_cell (g : Env.t) (self : BlackScholes.t) :
  val (BlackScholes.strike self) <> 0 ->
  ~ pow_overflow (BlackScholes.volatility self) ->
  returned (BlackScholes.calculate_prices g
              (BlackScholes.__init__ (BlackScholes.time_to_maturity self)
                 (BlackScholes.strike self)
                 (NpFloat (val (BlackScholes.current_price self)))
                 (NpFloat (val (BlackScholes.volatility self)))
                 (BlackScholes.risk_free_rate self))) =
  returned (BlackScholes.calculate_prices g self).
Proof.
  intros HK Hs.
  unfold returned, BlackScholes.calculate_prices, BlackScholes.compute_d1,
    BlackScholes.d1_dividend.
  cbn [BlackScholes.__init__ BlackScholes.time_to_maturity BlackScholes.strike
       BlackScholes.current_price BlackScholes.volatility BlackScholes.risk_free_rate].
  rewrite !truediv_nonzero by exact HK.
  rewrite (drift_term_np _ (BlackScholes.volatility self)) by exact Hs.
  cbn [val].
  unfold mbind, py_bind, mret, py_ret. case_py; reflexivity.
Qed.

(** When an axis pair contains the base model's own volatility and spot
    and the strike argument is the (nonzero) strike of the base model, the
    cell at that index pair is the base model's own call price minus
    [market_call_quote], and likewise for the put. *)
Theorem plot_heatmap_base_cell (g : Env.t) (bs_model : BlackScholes.t)
    (spot_range vol_range : list R) (i j : nat)
    (c p : float64) (bs' : BlackScholes.t) (w : list RuntimeWarning) :
  val (BlackScholes.strike bs_model) <> 0 ->
  vol_range !! i = Some (val (BlackScholes.volatility bs_model)) ->
  spot_range !! j = Some (val (BlackScholes.current_price bs_model)) ->
  BlackScholes.calculate_prices g bs_model = Return (c, p, bs') w ->
  exists call_pnl put_pnl w',
    plot_heatmap g bs_model spot_range vol_range (BlackScholes.strike bs_model)
      = Return (call_pnl, put_pnl) w' /\
    call_pnl !! i ≫= (.!! j) = Some (minus_quote c (Env.market_call_quote g)) /\
    put_pnl !! i ≫= (.!! j) = Some (minus_quote p (Env.market_put_quote g)).
Proof.
  intros HK Hi Hj Hrun.
  destruct (plot_heatmap_surface g bs_model spot_range vol_range
              (BlackScholes.strike bs_model)) as [w' Hmap].
  do 3 eexists. split; [exact Hmap |].
  rewrite !(surface_lookup _ _ _ i j _ _ Hi Hj).
  unfold call_cell, put_cell, cell_prices.
  pose proof (returned_calculate_prices_cell g bs_model HK
                (proj2 (calculate_prices_Return_inv _ _ _ _ _ _ Hrun))) as Hext.
  rewrite Hrun, returned_Return in Hext.
  apply returned_Return_inv in Hext as [s2 ->].
  split; reflexivity.
Qed.

Lemma plot_heatmap_base_cell_witness :
  exists c p call_pnl put_pnl w',
    plot_heatmap env_50 bs_50 [40; 50] [1; 2] (PyFloat 50) = Return (call_pnl, put_pnl) w' /\
    call_pnl !! O ≫= (.!! 1%nat) = Some (minus_quote c (141 / 10)) /\
    put_pnl !! O ≫= (.!! 1%nat) = Some (minus_quote p (92 / 10)) /\
    c = Fin (Spec.call 1 50 50 1 (1 / 2)) /\ p = Fin (Spec.put 1 50 50 1 (1 / 2)).
Proof.
  destruct (plot_heatmap_base_cell env_50 bs_50 [40; 50] [1; 2] O 1%nat
              _ _ _ _ ltac:(simpl; lra) eq_refl eq_refl
              calculate_prices_bs_50_env_50)
    as (call_pnl & put_pnl & w' & Hmap & Hc & Hp).
  do 5 eexists. split; [exact Hmap |]. split; [exact Hc |]. split; [exact Hp |].
  split; reflexivity.
Defined.

(** Called as the script calls it (strike argument equal to the
    module-level strike), the surface loop fills every cell whose five
    parameters (the model's time to maturity and rate, the strike
    argument, the cell's spot and volatility) are of ordinary magnitude
    with the closed-form Black-Scholes price of that spot and volatility
    minus the market quote. *)
Theorem plot_heatmap_closed_form (g : Env.t) (bs_model : BlackScholes.t)
    (spot_range vol_range : list R) (strike : num) :
  let t := val (BlackScholes.time_to_maturity bs_model) in
  let r := val (BlackScholes.risk_free_rate bs_model) in
  Env.strike g = val strike ->
  exists call_pnl put_pnl w,
    plot_heatmap g bs_model spot_range vol_range strike = Return (call_pnl, put_pnl) w /\
    forall (i j : nat) (vol spot : R),
      vol_range !! i = Some vol -> spot_range !! j = Some spot ->
      ordinary t (val strike) spot vol r ->
      call_pnl !! i ≫= (.!! j)
        = Some (Fin (Spec.call t (val strike) spot vol r - Env.market_call_quote g)) /\
      put_pnl !! i ≫= (.!! j)
        = Some (Fin (Spec.put t (val strike) spot vol r - Env.market_put_quote g)).
Proof.
  intros t r Hg.
  destruct (plot_heatmap_surface g bs_model spot_range vol_range strike) as [w Hmap].
  do 3 eexists. split; [exact Hmap |].
  intros i j vol spot Hi Hj Hord.
  apply (ordinary_fits t (val strike) spot (NpFloat vol) r) in Hord
    as (Ht & HK & HS & Hs & Hfit & Hexp).
  rewrite !(surface_lookup _ _ _ i j _ _ Hi Hj).
  unfold call_cell, put_cell, cell_prices.
  rewrite (calculate_prices_closed_form g) by (simpl; assumption).
  split; reflexivity.
Qed.

Lemma plot_heatmap_closed_form_witness :
  exists call_pnl put_pnl w,
    plot_heatmap env_50 bs_50 [40; 50] [1; 2] (PyFloat 50) = Return (call_pnl, put_pnl) w /\
    call_pnl !! 1%nat ≫= (.!! O)
      = Some (Fin (Spec.call 1 50 40 2 (1 / 2) - 141 / 10)) /\
    put_pnl !! 1%nat ≫= (.!! O)
      = Some (Fin (Spec.put 1 50 40 2 (1 / 2) - 92 / 10)).
Proof.
  destruct (plot_heatmap_closed_form env_50 bs_50 [40; 50] [1; 2] (PyFloat 50) eq_refl)
    as (call_pnl & put_pnl & w & Hmap & Hcells).
  exists call_pnl, put_pnl, w. split; [exact Hmap |].
  apply (Hcells 1%nat O 2 40); try reflexivity.
  pose proof inv_million_pos. unfold ordinary. simpl. lra.
Defined.

(** ** The simulation: errors, what it reads, what it draws *)

Section SimulationExtras.

Context {rng : Type}.
Variable GeometricBrownianMotion : R -> R -> R -> R -> R -> rng -> list R * rng.

(** Apart from making the pricer call of line 174 return, the model
    matters to the simulation through its time to maturity only: for two
    models with the same time to maturity on which that call returns, the
    two runs from the same generator state return the same equity path and
    generator state, or raise the same error. *)
Theorem equity_ignores_contract (g : Env.t) (bs1 bs2 b1 b2 : BlackScholes.t) (N : Z)
    (s : rng) (c1 p1 c2 p2 : float64) (w1 w2 : list RuntimeWarning) :
  val (BlackScholes.time_to_maturity bs1) = val (BlackScholes.time_to_maturity bs2) ->
  BlackScholes.calculate_prices g bs1 = Return (c1, p1, b1) w1 ->
  BlackScholes.calculate_prices g bs2 = Return (c2, p2, b2) w2 ->
  value (plot_account_equity GeometricBrownianMotion g bs1 N s) =
  value (plot_account_equity GeometricBrownianMotion g bs2 N s) /\
  forall e : PyErr,
    plot_account_equity GeometricBrownianMotion g bs1 N s = Raise e <->
    plot_account_equity GeometricBrownianMotion g bs2 N s = Raise e.
Proof.
  intros Ht H1 H2. unfold plot_account_equity.
  rewrite H1, H2, !bind_Return.
  apply calculate_prices_stored in H1, H2. subst b1 b2.
  rewrite (trial_loop_ext GeometricBrownianMotion g
             (BlackScholes.set_prices bs1 c1 p1) (BlackScholes.set_prices bs2 c2 p2))
    by exact Ht.
  destruct (for_range _ _ _) as [e' | [pls s'] wl]; simpl.
  - split; [reflexivity | tauto].
  - split; [reflexivity |]. intros e. split; discriminate.
Qed.



(** A simulation that returns has made exactly [N] sampler calls, each
    with the arguments of line 177: the generator state it leaves behind
    is the state after [N] such calls, and the equity path has one point
    per call. *)
Theorem plot_account_equity_draws (g : Env.t) (bs_model : BlackScholes.t) (N : Z)
    (s s' : rng) (equity : list R) (w : list RuntimeWarning) :
  plot_account_equity GeometricBrownianMotion g bs_model N s = Return (equity, s') w ->
  s' = rng_after GeometricBrownianMotion g bs_model (Z.to_nat N) s /\
  length equity = Z.to_nat N.
Proof.
  intros Hrun.
  destruct (plot_account_equity_Return_inv GeometricBrownianMotion g bs_model N s s'
              equity w Hrun) as (terminal & Hall & -> & ->).
  split; [reflexivity |].
  rewrite np_cumsum_length, length_fmap.
  rewrite <- (Forall2_length _ _ _ Hall). apply sampled_paths_length.
Qed.

End SimulationExtras.

Lemma two_point_paths (g : Env.t) (bs_model : BlackScholes.t) (n s : nat) :
  Forall (fun path => path <> []) (sampled_paths two_point_sampler g bs_model n s).
Proof.
  revert s. induction n as [| n IH]; intros s; simpl; constructor; [discriminate | apply IH].
Qed.

Lemma equity_ignores_contract_witness :
  value (plot_account_equity two_point_sampler env_50 bs_50 3 O) =
  value (plot_account_equity two_point_sampler env_50 (bs_model env_50) 3 O) /\
  forall e : PyErr,
    plot_account_equity two_point_sampler env_50 bs_50 3 O = Raise e <->
    plot_account_equity two_point_sampler env_50 (bs_model env_50) 3 O = Raise e.
Proof.
  eapply (equity_ignores_contract two_point_sampler env_50 bs_50 (bs_model env_50)).
  - reflexivity.
  - exact calculate_prices_bs_50_env_50.
  - apply (calculate_prices_closed_form env_50 (bs_model env_50)); concrete.
Defined.



Lemma plot_account_equity_draws_witness :
  exists (equity : list R) (w : list RuntimeWarning),
    plot_account_equity two_point_sampler env_100 bs_50 3 O = Return (equity, 3%nat) w /\
    3%nat = rng_after two_point_sampler env_100 bs_50 (Z.to_nat 3) O /\
    length equity = Z.to_nat 3.
Proof.
  pose proof (plot_account_equity_run two_point_sampler env_100 bs_50 _ _ _ _ 3 O _
                calculate_prices_bs_50 ltac:(simpl; lia)
                (nonempty_last 0 _ (two_point_paths env_100 bs_50 (Z.to_nat 3) O))) as Hrun.
  do 2 eexists. split; [exact Hrun |].
  apply (plot_account_equity_draws two_point_sampler env_100 bs_50 3 O _ _ _ Hrun).
Defined.

(** ** The script *)



Section ScriptFacts.

Context {rng : Type}.
Variable GeometricBrownianMotion : R -> R -> R -> R -> R -> rng -> list R * rng.

(** With a strike of 0.0 in the sidebar the script stops at line 218 with
    ZeroDivisionError: no heatmap and no equity path is computed. *)
Theorem script_zero_strike (g : Env.t) (b : Sidebar.t) (s : rng) :
  Env.strike g = 0 ->
  script GeometricBrownianMotion g b s = Raise ZeroDivisionError.
Proof.
  intros HK. unfold script.
  rewrite calculate_prices_zero_strike by (simpl; exact HK). reflexivity.
Qed.


End ScriptFacts.

Lemma script_zero_strike_witness :
  script two_point_sampler env_zero_strike sidebar_default O = Raise ZeroDivisionError.
Proof.
  apply (script_zero_strike two_point_sampler env_zero_strike sidebar_default O).
  reflexivity.
Defined.


